(** * fargate-deployment: the deployment composer of
      [src/createFargateDeployment.ts]

    The repository is one TypeScript function, [createFargateDeployment],
    which builds fourteen CloudFormation resource descriptions and wires
    references between them.  This file embeds that function three times:

    - as a pure function over immutable records (the result the caller
      reads),
    - in store-passing style, where every description is an object of a
      store, [getRef] reads an object and [dependsOn] writes one (the
      effects the TypeScript has), and
    - over a heap that also holds the caller's arrays, which the bags then
      hold by reference (what two results share).

    The three are shown to agree, and the statements of the specification
    are settled on them. *)

From Stdlib Require Import String List Bool Arith Lia PrimFloat.
Import ListNotations.
Open Scope string_scope.

Set Implicit Arguments.

(** ** JavaScript values *)

(** A TypeScript [number] is an IEEE 754 binary64 value. *)
Definition number : Type := float.

(** [ToBoolean] on a number: [+0], [-0] and [NaN] are falsy. *)
Definition truthyNumber (x : number) : bool :=
  negb (is_zero x || is_nan x).

(** [ToBoolean] on a string: only the empty string is falsy. *)
Definition truthyString (s : string) : bool :=
  negb (s =? "").

(** [x || d] where [x] is an optional number ([undefined] is falsy). *)
Definition orNumber (x : option number) (d : number) : number :=
  match x with
  | Some v => if truthyNumber v then v else d
  | None => d
  end.

(** [x || d] where [x] is an optional string. *)
Definition orString (x : option string) (d : string) : string :=
  match x with
  | Some v => if truthyString v then v else d
  | None => d
  end.

(** [ToBoolean] on an optional boolean, the condition of [c ? a : b]. *)
Definition truthyFlag (x : option bool) : bool :=
  match x with
  | Some b => b
  | None => false
  end.

(** ** The template library, [@sjmeverett/cloudformation-types]

    The package is imported by the source and is not part of the repository.
    Its values are modelled from the specification's data model and
    collaborator contracts. *)

(** Modelled from the spec: the library's reference values are missing.
    "Reference: a typed pointer from one resource's property to another
    resource's identity (ref) or a named runtime attribute (attribute)";
    the pointer is the target's logical name, which is how a template names
    a resource. *)
Inductive Reference : Type :=
| Ref (logicalName : string)
| GetAtt (logicalName attributeName : string).

(** The logical name a reference points to. *)
Definition target (r : Reference) : string :=
  match r with
  | Ref n => n
  | GetAtt n _ => n
  end.

(** Modelled from the spec: the library's description type is missing.
    "ResourceDescription: [...] carries a logical name, a resource kind, and
    a property bag"; [dependsOn] "records an explicit ordering edge", kept
    here as the list of logical names the description depends on. *)
Record ResourceDescription (Props : Type) : Type := mkResource {
  LogicalName : string;
  Kind : string;
  Properties : Props;
  DependsOn : list string
}.

(** Modelled from the spec: the library's factories are missing.
    "Resource factories: create<Kind>(logicalName, propertyBag) ->
    ResourceDescription, deterministic, pure".  A fresh description has no
    ordering edge. *)
Definition create (Props : Type) (kind : string) (logicalName : string)
  (properties : Props) : ResourceDescription Props :=
  {| LogicalName := logicalName;
     Kind := kind;
     Properties := properties;
     DependsOn := [] |}.

(** Modelled from the spec: [getRef] is missing.  "getRef(resource) ->
    Reference -- resolves to the resource's identity at render time". *)
Definition getRef (Props : Type) (resource : ResourceDescription Props)
  : Reference :=
  Ref (LogicalName resource).

(** Modelled from the spec: [getAttribute] is missing.
    "getAttribute(resource, attributeName) -> Reference -- resolves to a
    named runtime attribute". *)
Definition getAttribute (Props : Type) (resource : ResourceDescription Props)
  (attributeName : string) : Reference :=
  GetAtt (LogicalName resource) attributeName.

(** Modelled from the spec: [dependsOn] is missing.  "dependsOn(dependent,
    dependency) -- records an explicit ordering edge consulted by the
    renderer".  [addDependency] is the change it makes to [dependent]: one
    more logical name in its list of dependencies. *)
Definition addDependency (P : Type) (dependent : ResourceDescription P)
  (dependency : string) : ResourceDescription P :=
  {| LogicalName := LogicalName dependent;
     Kind := Kind dependent;
     Properties := Properties dependent;
     DependsOn := DependsOn dependent ++ [dependency] |}.

(** The TypeScript call returns nothing and changes [dependent]; in the pure
    embedding the changed description is the result. *)
Definition dependsOn (P Q : Type) (dependent : ResourceDescription P)
  (dependency : ResourceDescription Q) : ResourceDescription P :=
  addDependency dependent (LogicalName dependency).

(** ** Property bags

    One module per resource kind, holding the properties the source writes.
    A property the source fills with [getRef] or [getAttribute] is a
    [Reference]; one it fills from the options or with a literal has the
    literal's type.  A property the source may leave out is an [option]. *)

Module ECSCluster.
Record ClusterSetting : Type := {
  Name : string;
  Value : string
}.
Record Props : Type := {
  ClusterSettings : option (list ClusterSetting)
}.
End ECSCluster.

Module EC2SecurityGroup.
Record Ingress : Type := {
  CidrIp : string;
  IpProtocol : string
}.
Record Props : Type := {
  GroupDescription : string;
  VpcId : string;
  SecurityGroupIngress : option (list Ingress)
}.
End EC2SecurityGroup.

Module EC2SecurityGroupIngress.
Record Props : Type := {
  Description : string;
  GroupId : Reference;
  IpProtocol : string;
  SourceSecurityGroupId : Reference
}.
End EC2SecurityGroupIngress.

Module LoadBalancer.
Record Attribute : Type := {
  Key : string;
  Value : string
}.
Record Props : Type := {
  Scheme : string;
  LoadBalancerAttributes : list Attribute;
  Subnets : list string;
  SecurityGroups : list Reference
}.
End LoadBalancer.

Module LogsLogGroup.
Record Props : Type := {
  LogGroupName : string
}.
End LogsLogGroup.

Module TargetGroup.
Record Props : Type := {
  HealthCheckIntervalSeconds : number;
  HealthCheckPath : string;
  HealthCheckProtocol : string;
  HealthCheckTimeoutSeconds : number;
  HealthyThresholdCount : number;
  Port : number;
  Protocol : string;
  TargetType : string;
  UnhealthyThresholdCount : number;
  VpcId : string
}.
End TargetGroup.

Module Listener.
Record Action : Type := {
  TargetGroupArn : Reference;
  Type_ : string
}.
Record Certificate : Type := {
  CertificateArn : string
}.
Record Props : Type := {
  DefaultActions : list Action;
  LoadBalancerArn : Reference;
  Port : number;
  Protocol : string;
  Certificates : list Certificate
}.
End Listener.

Module ECSService.
Record DeploymentConfigurationProps : Type := {
  MaximumPercent : number;
  MinimumHealthyPercent : number
}.
Record AwsvpcConfigurationProps : Type := {
  SecurityGroups : list Reference;
  Subnets : list string
}.
Record NetworkConfigurationProps : Type := {
  AwsvpcConfiguration : AwsvpcConfigurationProps
}.
Record LoadBalancerProps : Type := {
  ContainerName : string;
  ContainerPort : number;
  TargetGroupArn : Reference
}.
Record Props : Type := {
  Cluster : Reference;
  LaunchType : string;
  DeploymentConfiguration : DeploymentConfigurationProps;
  DesiredCount : number;
  NetworkConfiguration : NetworkConfigurationProps;
  TaskDefinition : Reference;
  LoadBalancers : list LoadBalancerProps
}.
End ECSService.

Module Route53RecordSet.
Record AliasTargetProps : Type := {
  HostedZoneId : Reference;
  DNSName : Reference;
  EvaluateTargetHealth : bool
}.
Record Props : Type := {
  Name : string;
  Type_ : string;
  HostedZoneName : string;
  AliasTarget : AliasTargetProps
}.
End Route53RecordSet.

(** ** The options of a deployment *)

(** [interface FargateDeploymentOptions].  [IAMRolePolicy] is a type of the
    template library, whose declaration is not in the repository: it is a
    parameter. *)
Module Options.
Record FargateDeploymentOptions (IAMRolePolicy : Type) : Type := {
  ServiceName : string;
  ImageUrl : string;
  ContainerPort : number;
  ContainerCpu : option number;
  ContainerMemory : option number;
  DesiredCount : option number;
  VpcId : string;
  PrivateSubnets : list string;
  PublicSubnets : list string;
  DomainName : string;
  ZoneName : string;
  Stage : string;
  CertificateArn : string;
  Policies : option (list IAMRolePolicy);
  Environment : option (list (string * string));
  HealthCheckUrl : option string;
  EnableContainerInsights : option bool
}.
End Options.

(** The object handed to [createECSTaskRole]: [{ Policies: options.Policies }]. *)
Module ECSTaskRole.
Record Options (IAMRolePolicy : Type) : Type := {
  Policies : option (list IAMRolePolicy)
}.
End ECSTaskRole.

(** The object handed to [createFargateTaskDefinition]: the options spread,
    then three references. *)
Module FargateTaskDefinition.
Record Options (IAMRolePolicy : Type) : Type := {
  spread : Options.FargateDeploymentOptions IAMRolePolicy;
  ExecutionRoleArn : Reference;
  TaskRoleArn : Reference;
  LogGroup : Reference
}.
End FargateTaskDefinition.

(** The factories the source calls, one per resource kind; the kind is the
    factory's name after [create]. *)
Definition createECSCluster :=
  create (Props := ECSCluster.Props) "ECSCluster".
Definition createEC2SecurityGroup :=
  create (Props := EC2SecurityGroup.Props) "EC2SecurityGroup".
Definition createEC2SecurityGroupIngress :=
  create (Props := EC2SecurityGroupIngress.Props) "EC2SecurityGroupIngress".
Definition createElasticLoadBalancingV2LoadBalancer :=
  create (Props := LoadBalancer.Props) "ElasticLoadBalancingV2LoadBalancer".
Definition createLogsLogGroup :=
  create (Props := LogsLogGroup.Props) "LogsLogGroup".
Definition createElasticLoadBalancingV2TargetGroup :=
  create (Props := TargetGroup.Props) "ElasticLoadBalancingV2TargetGroup".
Definition createElasticLoadBalancingV2Listener :=
  create (Props := Listener.Props) "ElasticLoadBalancingV2Listener".
Definition createECSService :=
  create (Props := ECSService.Props) "ECSService".
Definition createRoute53RecordSet :=
  create (Props := Route53RecordSet.Props) "Route53RecordSet".

(** ** The sibling composers

    [createFargateExecutionRole], [createECSTaskRole] and
    [createFargateTaskDefinition] are imported from sibling files whose
    source is missing.  The composer is embedded over any three such
    functions ([Section Composer] below); the instances here are used to
    show that what is assumed of them can be met. *)

(** Modelled from the spec: [./createFargateExecutionRole] is missing.  The
    spec calls it an "external collaborator composer" which is "assumed to
    already produce valid resource descriptions"; like a factory it is given
    the logical name.  The bag it builds is not described: this instance
    keeps what the composer is handed (no policy list). *)
Definition specFargateExecutionRole (IAMRolePolicy : Type) (name : string)
  : ResourceDescription (ECSTaskRole.Options IAMRolePolicy) :=
  create "IAMRole" name {| ECSTaskRole.Policies := None |}.

(** Modelled from the spec: [./createECSTaskRole] is missing.  "task role
    receives the caller-supplied access-policy list"; this instance keeps
    the options object as the bag. *)
Definition specECSTaskRole (IAMRolePolicy : Type) (name : string)
  (options : ECSTaskRole.Options IAMRolePolicy)
  : ResourceDescription (ECSTaskRole.Options IAMRolePolicy) :=
  create "IAMRole" name options.

(** Modelled from the spec: [./createFargateTaskDefinition] is missing.
    "Task definition: delegated to an external collaborator composer, given
    the full deployment options plus resolved execution-role ARN, task-role
    ARN, and log-group reference"; this instance keeps the options object as
    the bag. *)
Definition specFargateTaskDefinition (IAMRolePolicy : Type) (name : string)
  (options : FargateTaskDefinition.Options IAMRolePolicy)
  : ResourceDescription (FargateTaskDefinition.Options IAMRolePolicy) :=
  create "ECSTaskDefinition" name options.

(** ** The same data, with arrays and objects held by reference

    A TypeScript array or object is a reference.  The composer stores the
    caller's [PublicSubnets] and [PrivateSubnets] arrays in the bags it
    builds (lines 175 and 232) and hands [Policies] and [Environment] on to
    the sibling composers (lines 183 and 191).  In the records below such a
    value is the address of a cell of the heap: a position, as in the
    store.  Strings, numbers and booleans are values in TypeScript too. *)

Module OptionsByRef.
Record FargateDeploymentOptions : Type := {
  ServiceName : string;
  ImageUrl : string;
  ContainerPort : number;
  ContainerCpu : option number;
  ContainerMemory : option number;
  DesiredCount : option number;
  VpcId : string;
  PrivateSubnets : nat;
  PublicSubnets : nat;
  DomainName : string;
  ZoneName : string;
  Stage : string;
  CertificateArn : string;
  Policies : option nat;
  Environment : option nat;
  HealthCheckUrl : option string;
  EnableContainerInsights : option bool
}.
End OptionsByRef.

Module LoadBalancerByRef.
Record Props : Type := {
  Scheme : string;
  LoadBalancerAttributes : list LoadBalancer.Attribute;
  Subnets : nat;
  SecurityGroups : list Reference
}.
End LoadBalancerByRef.

Module ECSServiceByRef.
Record AwsvpcConfigurationProps : Type := {
  SecurityGroups : list Reference;
  Subnets : nat
}.
Record NetworkConfigurationProps : Type := {
  AwsvpcConfiguration : AwsvpcConfigurationProps
}.
Record Props : Type := {
  Cluster : Reference;
  LaunchType : string;
  DeploymentConfiguration : ECSService.DeploymentConfigurationProps;
  DesiredCount : number;
  NetworkConfiguration : NetworkConfigurationProps;
  TaskDefinition : Reference;
  LoadBalancers : list ECSService.LoadBalancerProps
}.
End ECSServiceByRef.

(** The object handed to [createECSTaskRole], its policy list by
    reference. *)
Module ECSTaskRoleByRef.
Record Options : Type := {
  Policies : option nat
}.
End ECSTaskRoleByRef.

(** The object handed to [createFargateTaskDefinition]: the spread copies
    the fields of the options, so the arrays and the environment are the
    caller's. *)
Module FargateTaskDefinitionByRef.
Record Options : Type := {
  spread : OptionsByRef.FargateDeploymentOptions;
  ExecutionRoleArn : Reference;
  TaskRoleArn : Reference;
  LogGroup : Reference
}.
End FargateTaskDefinitionByRef.

(** The two factories whose bags hold an array, on the bags by reference. *)
Definition createElasticLoadBalancingV2LoadBalancerByRef :=
  create (Props := LoadBalancerByRef.Props) "ElasticLoadBalancingV2LoadBalancer".
Definition createECSServiceByRef :=
  create (Props := ECSServiceByRef.Props) "ECSService".

(** Modelled from the spec: [./createFargateExecutionRole] is missing; as
    [specFargateExecutionRole], for the data held by reference. *)
Definition specFargateExecutionRoleByRef (name : string)
  : ResourceDescription ECSTaskRoleByRef.Options :=
  create "IAMRole" name {| ECSTaskRoleByRef.Policies := None |}.

(** Modelled from the spec: [./createECSTaskRole] is missing; as
    [specECSTaskRole], keeping the options object, and with it the
    reference to the caller's policy list, as the bag. *)
Definition specECSTaskRoleByRef (name : string)
  (options : ECSTaskRoleByRef.Options)
  : ResourceDescription ECSTaskRoleByRef.Options :=
  create "IAMRole" name options.

(** Modelled from the spec: [./createFargateTaskDefinition] is missing; as
    [specFargateTaskDefinition], keeping the options object as the bag. *)
Definition specFargateTaskDefinitionByRef (name : string)
  (options : FargateTaskDefinitionByRef.Options)
  : ResourceDescription FargateTaskDefinitionByRef.Options :=
  create "ECSTaskDefinition" name options.

(** The options by value that options by reference stand for, once the
    contents of the four cells they refer to are given. *)
Definition optionsByValue (IAMRolePolicy : Type)
  (privateSubnets publicSubnets : list string)
  (policies : option (list IAMRolePolicy))
  (environment : option (list (string * string)))
  (options : OptionsByRef.FargateDeploymentOptions)
  : Options.FargateDeploymentOptions IAMRolePolicy :=
  {| Options.ServiceName := OptionsByRef.ServiceName options;
     Options.ImageUrl := OptionsByRef.ImageUrl options;
     Options.ContainerPort := OptionsByRef.ContainerPort options;
     Options.ContainerCpu := OptionsByRef.ContainerCpu options;
     Options.ContainerMemory := OptionsByRef.ContainerMemory options;
     Options.DesiredCount := OptionsByRef.DesiredCount options;
     Options.VpcId := OptionsByRef.VpcId options;
     Options.PrivateSubnets := privateSubnets;
     Options.PublicSubnets := publicSubnets;
     Options.DomainName := OptionsByRef.DomainName options;
     Options.ZoneName := OptionsByRef.ZoneName options;
     Options.Stage := OptionsByRef.Stage options;
     Options.CertificateArn := OptionsByRef.CertificateArn options;
     Options.Policies := policies;
     Options.Environment := environment;
     Options.HealthCheckUrl := OptionsByRef.HealthCheckUrl options;
     Options.EnableContainerInsights :=
       OptionsByRef.EnableContainerInsights options |}.

(** The end-to-end scenario with its two subnet arrays in the heap:
    [PrivateSubnets] at address 0 and [PublicSubnets] at address 1. *)
Definition scenarioOptionsByRef : OptionsByRef.FargateDeploymentOptions :=
  {| OptionsByRef.ServiceName := "api";
     OptionsByRef.ImageUrl := "example/api:latest";
     OptionsByRef.ContainerPort := 8080%float;
     OptionsByRef.ContainerCpu := None;
     OptionsByRef.ContainerMemory := None;
     OptionsByRef.DesiredCount := None;
     OptionsByRef.VpcId := "vpc-1";
     OptionsByRef.PrivateSubnets := 0;
     OptionsByRef.PublicSubnets := 1;
     OptionsByRef.DomainName := "api.example.com";
     OptionsByRef.ZoneName := "example.com.";
     OptionsByRef.Stage := "prod";
     OptionsByRef.CertificateArn := "arn:cert:1";
     OptionsByRef.Policies := None;
     OptionsByRef.Environment := None;
     OptionsByRef.HealthCheckUrl := None;
     OptionsByRef.EnableContainerInsights := None |}.

(** The settings a cluster is created with: the entries of its settings
    list.  A bag without the property configures none ("otherwise default
    settings"). *)
Definition configuredSettings (properties : ECSCluster.Props)
  : list ECSCluster.ClusterSetting :=
  match ECSCluster.ClusterSettings properties with
  | Some settings => settings
  | None => []
  end.

(** ** A deployment to run

    The end-to-end scenario of the specification, [compose("Api", {...})],
    with the three optional fields the composer itself reads left open. *)
Definition scenarioOptions (desiredCount : option number)
  (healthCheckUrl : option string) (enableContainerInsights : option bool)
  : Options.FargateDeploymentOptions unit :=
  {| Options.ServiceName := "api";
     Options.ImageUrl := "example/api:latest";
     Options.ContainerPort := 8080%float;
     Options.ContainerCpu := None;
     Options.ContainerMemory := None;
     Options.DesiredCount := desiredCount;
     Options.VpcId := "vpc-1";
     Options.PrivateSubnets := [ "subnet-a" ];
     Options.PublicSubnets := [ "subnet-b" ];
     Options.DomainName := "api.example.com";
     Options.ZoneName := "example.com.";
     Options.Stage := "prod";
     Options.CertificateArn := "arn:cert:1";
     Options.Policies := None;
     Options.Environment := None;
     Options.HealthCheckUrl := healthCheckUrl;
     Options.EnableContainerInsights := enableContainerInsights |}.

(** The scenario as written: every optional field omitted. *)
Definition exampleOptions : Options.FargateDeploymentOptions unit :=
  scenarioOptions None None None.

(** The options with the five fields replaced that the composer does not
    read itself: the source only passes them on, inside [...options], to
    [createFargateTaskDefinition]. *)
Definition withTaskDefinitionFields (IAMRolePolicy : Type)
  (imageUrl : string) (containerCpu containerMemory : option number)
  (stage : string) (environment : option (list (string * string)))
  (options : Options.FargateDeploymentOptions IAMRolePolicy)
  : Options.FargateDeploymentOptions IAMRolePolicy :=
  {| Options.ServiceName := Options.ServiceName options;
     Options.ImageUrl := imageUrl;
     Options.ContainerPort := Options.ContainerPort options;
     Options.ContainerCpu := containerCpu;
     Options.ContainerMemory := containerMemory;
     Options.DesiredCount := Options.DesiredCount options;
     Options.VpcId := Options.VpcId options;
     Options.PrivateSubnets := Options.PrivateSubnets options;
     Options.PublicSubnets := Options.PublicSubnets options;
     Options.DomainName := Options.DomainName options;
     Options.ZoneName := Options.ZoneName options;
     Options.Stage := stage;
     Options.CertificateArn := Options.CertificateArn options;
     Options.Policies := Options.Policies options;
     Options.Environment := environment;
     Options.HealthCheckUrl := Options.HealthCheckUrl options;
     Options.EnableContainerInsights :=
       Options.EnableContainerInsights options |}.

(** ** The composer *)

Section Composer.

(** Types of the template library whose declarations are missing. *)
Variable IAMRolePolicy : Type.
Variable IAMRoleProps : Type.
Variable ECSTaskDefinitionProps : Type.

(** The three sibling composers. *)
Variable createFargateExecutionRole :
  string -> ResourceDescription IAMRoleProps.
Variable createECSTaskRole :
  string -> ECSTaskRole.Options IAMRolePolicy ->
  ResourceDescription IAMRoleProps.
Variable createFargateTaskDefinition :
  string -> FargateTaskDefinition.Options IAMRolePolicy ->
  ResourceDescription ECSTaskDefinitionProps.

(** [interface FargateDeploymentResources] *)
Record FargateDeploymentResources : Type := {
  cluster : ResourceDescription ECSCluster.Props;
  containerSecurityGroup : ResourceDescription EC2SecurityGroup.Props;
  loadBalancerSecurityGroup : ResourceDescription EC2SecurityGroup.Props;
  albIngress : ResourceDescription EC2SecurityGroupIngress.Props;
  selfIngress : ResourceDescription EC2SecurityGroupIngress.Props;
  loadBalancer : ResourceDescription LoadBalancer.Props;
  executionRole : ResourceDescription IAMRoleProps;
  taskRole : ResourceDescription IAMRoleProps;
  task : ResourceDescription ECSTaskDefinitionProps;
  targetGroup : ResourceDescription TargetGroup.Props;
  service : ResourceDescription ECSService.Props;
  listener : ResourceDescription Listener.Props;
  logGroup : ResourceDescription LogsLogGroup.Props;
  recordset : ResourceDescription Route53RecordSet.Props
}.

(** [createFargateDeployment], lines 119-274.  Each [const] of the source is
    a [let].  [dependsOn(service, listener)] changes the object [service] in
    place; here it rebinds [service] to the changed description.  Nothing
    but the result holds that object (the store-passing embedding below
    makes the write explicit). *)
Definition createFargateDeployment (name : string)
  (options : Options.FargateDeploymentOptions IAMRolePolicy)
  : FargateDeploymentResources :=
  let cluster :=
    createECSCluster (name ++ "Cluster")
      (if truthyFlag (Options.EnableContainerInsights options)
       then {| ECSCluster.ClusterSettings :=
                 Some [ {| ECSCluster.Name := "containerInsights";
                           ECSCluster.Value := "enabled" |} ] |}
       else {| ECSCluster.ClusterSettings := None |}) in
  let containerSecurityGroup :=
    createEC2SecurityGroup (name ++ "ContainerSecurityGroup")
      {| EC2SecurityGroup.GroupDescription := "Access to the Fargate containers";
         EC2SecurityGroup.VpcId := Options.VpcId options;
         EC2SecurityGroup.SecurityGroupIngress := None |} in
  let loadBalancerSecurityGroup :=
    createEC2SecurityGroup (name ++ "LoadBalancerSecurityGroup")
      {| EC2SecurityGroup.GroupDescription :=
           "Access to the public facing load balancer";
         EC2SecurityGroup.VpcId := Options.VpcId options;
         EC2SecurityGroup.SecurityGroupIngress :=
           Some [ {| EC2SecurityGroup.CidrIp := "0.0.0.0/0";
                     EC2SecurityGroup.IpProtocol := "-1" |} ] |} in
  let albIngress :=
    createEC2SecurityGroupIngress (name ++ "ALBIngress")
      {| EC2SecurityGroupIngress.Description := "Ingress from the public ALB";
         EC2SecurityGroupIngress.GroupId := getRef containerSecurityGroup;
         EC2SecurityGroupIngress.IpProtocol := "-1";
         EC2SecurityGroupIngress.SourceSecurityGroupId :=
           getRef loadBalancerSecurityGroup |} in
  let selfIngress :=
    createEC2SecurityGroupIngress (name ++ "SelfIngress")
      {| EC2SecurityGroupIngress.Description :=
           "Ingress from other containers in the same security group";
         EC2SecurityGroupIngress.GroupId := getRef containerSecurityGroup;
         EC2SecurityGroupIngress.IpProtocol := "-1";
         EC2SecurityGroupIngress.SourceSecurityGroupId :=
           getRef containerSecurityGroup |} in
  let loadBalancer :=
    createElasticLoadBalancingV2LoadBalancer (name ++ "LoadBalancer")
      {| LoadBalancer.Scheme := "internet-facing";
         LoadBalancer.LoadBalancerAttributes :=
           [ {| LoadBalancer.Key := "idle_timeout.timeout_seconds";
                LoadBalancer.Value := "30" |} ];
         LoadBalancer.Subnets := Options.PublicSubnets options;
         LoadBalancer.SecurityGroups := [ getRef loadBalancerSecurityGroup ] |} in
  let executionRole := createFargateExecutionRole (name ++ "ExecutionRole") in
  let taskRole :=
    createECSTaskRole (name ++ "TaskRole")
      {| ECSTaskRole.Policies := Options.Policies options |} in
  let logGroup :=
    createLogsLogGroup (name ++ "LogGroup")
      {| LogsLogGroup.LogGroupName := name |} in
  let task :=
    createFargateTaskDefinition (name ++ "Task")
      {| FargateTaskDefinition.spread := options;
         FargateTaskDefinition.ExecutionRoleArn :=
           getAttribute executionRole "Arn";
         FargateTaskDefinition.TaskRoleArn := getAttribute taskRole "Arn";
         FargateTaskDefinition.LogGroup := getRef logGroup |} in
  let targetGroup :=
    createElasticLoadBalancingV2TargetGroup (name ++ "TargetGroup")
      {| TargetGroup.HealthCheckIntervalSeconds := 10%float;
         TargetGroup.HealthCheckPath :=
           orString (Options.HealthCheckUrl options) "/";
         TargetGroup.HealthCheckProtocol := "HTTP";
         TargetGroup.HealthCheckTimeoutSeconds := 5%float;
         TargetGroup.HealthyThresholdCount := 2%float;
         TargetGroup.Port := Options.ContainerPort options;
         TargetGroup.Protocol := "HTTP";
         TargetGroup.TargetType := "ip";
         TargetGroup.UnhealthyThresholdCount := 2%float;
         TargetGroup.VpcId := Options.VpcId options |} in
  let listener :=
    createElasticLoadBalancingV2Listener (name ++ "Listener")
      {| Listener.DefaultActions :=
           [ {| Listener.TargetGroupArn := getRef targetGroup;
                Listener.Type_ := "forward" |} ];
         Listener.LoadBalancerArn := getRef loadBalancer;
         Listener.Port := 443%float;
         Listener.Protocol := "HTTPS";
         Listener.Certificates :=
           [ {| Listener.CertificateArn := Options.CertificateArn options |} ] |} in
  let service :=
    createECSService (name ++ "Service")
      {| ECSService.Cluster := getRef cluster;
         ECSService.LaunchType := "FARGATE";
         ECSService.DeploymentConfiguration :=
           {| ECSService.MaximumPercent := 200%float;
              ECSService.MinimumHealthyPercent := 75%float |};
         ECSService.DesiredCount := orNumber (Options.DesiredCount options) 2%float;
         ECSService.NetworkConfiguration :=
           {| ECSService.AwsvpcConfiguration :=
                {| ECSService.SecurityGroups := [ getRef containerSecurityGroup ];
                   ECSService.Subnets := Options.PrivateSubnets options |} |};
         ECSService.TaskDefinition := getRef task;
         ECSService.LoadBalancers :=
           [ {| ECSService.ContainerName := Options.ServiceName options;
                ECSService.ContainerPort := Options.ContainerPort options;
                ECSService.TargetGroupArn := getRef targetGroup |} ] |} in
  let service := dependsOn service listener in
  let recordset :=
    createRoute53RecordSet (name ++ "RecordSet")
      {| Route53RecordSet.Name := Options.DomainName options;
         Route53RecordSet.Type_ := "A";
         Route53RecordSet.HostedZoneName := Options.ZoneName options;
         Route53RecordSet.AliasTarget :=
           {| Route53RecordSet.HostedZoneId :=
                getAttribute loadBalancer "CanonicalHostedZoneID";
              Route53RecordSet.DNSName := getAttribute loadBalancer "DNSName";
              Route53RecordSet.EvaluateTargetHealth := true |} |} in
  {| cluster := cluster;
     containerSecurityGroup := containerSecurityGroup;
     loadBalancerSecurityGroup := loadBalancerSecurityGroup;
     albIngress := albIngress;
     selfIngress := selfIngress;
     loadBalancer := loadBalancer;
     executionRole := executionRole;
     taskRole := taskRole;
     task := task;
     targetGroup := targetGroup;
     service := service;
     listener := listener;
     logGroup := logGroup;
     recordset := recordset |}.


(** ** The same function with its effects

    In the TypeScript every description is an object: a factory allocates
    it, [getRef] and [getAttribute] read its logical name, and [dependsOn]
    writes to it.  The store holds these objects; the arrays and strings of
    the options are values, which the source reads and never writes; the
    heap embedding further below holds the arrays by reference. *)

(** An object of the store: a description, tagged with its TypeScript
    type. *)
Inductive Object : Type :=
| ClusterObject (d : ResourceDescription ECSCluster.Props)
| SecurityGroupObject (d : ResourceDescription EC2SecurityGroup.Props)
| SecurityGroupIngressObject (d : ResourceDescription EC2SecurityGroupIngress.Props)
| LoadBalancerObject (d : ResourceDescription LoadBalancer.Props)
| RoleObject (d : ResourceDescription IAMRoleProps)
| LogGroupObject (d : ResourceDescription LogsLogGroup.Props)
| TaskDefinitionObject (d : ResourceDescription ECSTaskDefinitionProps)
| TargetGroupObject (d : ResourceDescription TargetGroup.Props)
| ListenerObject (d : ResourceDescription Listener.Props)
| ServiceObject (d : ResourceDescription ECSService.Props)
| RecordSetObject (d : ResourceDescription Route53RecordSet.Props).

Definition objectName (o : Object) : string :=
  match o with
  | ClusterObject d => LogicalName d
  | SecurityGroupObject d => LogicalName d
  | SecurityGroupIngressObject d => LogicalName d
  | LoadBalancerObject d => LogicalName d
  | RoleObject d => LogicalName d
  | LogGroupObject d => LogicalName d
  | TaskDefinitionObject d => LogicalName d
  | TargetGroupObject d => LogicalName d
  | ListenerObject d => LogicalName d
  | ServiceObject d => LogicalName d
  | RecordSetObject d => LogicalName d
  end.

Definition objectDependsOn (o : Object) : list string :=
  match o with
  | ClusterObject d => DependsOn d
  | SecurityGroupObject d => DependsOn d
  | SecurityGroupIngressObject d => DependsOn d
  | LoadBalancerObject d => DependsOn d
  | RoleObject d => DependsOn d
  | LogGroupObject d => DependsOn d
  | TaskDefinitionObject d => DependsOn d
  | TargetGroupObject d => DependsOn d
  | ListenerObject d => DependsOn d
  | ServiceObject d => DependsOn d
  | RecordSetObject d => DependsOn d
  end.

(** What [dependsOn] writes, whatever the object's type. *)
Definition objectAddDependency (o : Object) (dependency : string) : Object :=
  match o with
  | ClusterObject d => ClusterObject (addDependency d dependency)
  | SecurityGroupObject d => SecurityGroupObject (addDependency d dependency)
  | SecurityGroupIngressObject d =>
      SecurityGroupIngressObject (addDependency d dependency)
  | LoadBalancerObject d => LoadBalancerObject (addDependency d dependency)
  | RoleObject d => RoleObject (addDependency d dependency)
  | LogGroupObject d => LogGroupObject (addDependency d dependency)
  | TaskDefinitionObject d => TaskDefinitionObject (addDependency d dependency)
  | TargetGroupObject d => TargetGroupObject (addDependency d dependency)
  | ListenerObject d => ListenerObject (addDependency d dependency)
  | ServiceObject d => ServiceObject (addDependency d dependency)
  | RecordSetObject d => RecordSetObject (addDependency d dependency)
  end.

(** The references held in the bag of an object that a factory of the
    template library built.  The bags of the roles and of the task
    definition are built by the sibling composers and are not read here. *)
Definition objectReferences (o : Object) : list Reference :=
  match o with
  | ClusterObject _ => []
  | SecurityGroupObject _ => []
  | SecurityGroupIngressObject d =>
      [ EC2SecurityGroupIngress.GroupId (Properties d);
        EC2SecurityGroupIngress.SourceSecurityGroupId (Properties d) ]
  | LoadBalancerObject d => LoadBalancer.SecurityGroups (Properties d)
  | RoleObject _ => []
  | LogGroupObject _ => []
  | TaskDefinitionObject _ => []
  | TargetGroupObject _ => []
  | ListenerObject d =>
      map Listener.TargetGroupArn (Listener.DefaultActions (Properties d))
      ++ [ Listener.LoadBalancerArn (Properties d) ]
  | ServiceObject d =>
      [ ECSService.Cluster (Properties d) ]
      ++ ECSService.SecurityGroups
           (ECSService.AwsvpcConfiguration
              (ECSService.NetworkConfiguration (Properties d)))
      ++ [ ECSService.TaskDefinition (Properties d) ]
      ++ map ECSService.TargetGroupArn (ECSService.LoadBalancers (Properties d))
  | RecordSetObject d =>
      [ Route53RecordSet.HostedZoneId
          (Route53RecordSet.AliasTarget (Properties d));
        Route53RecordSet.DNSName
          (Route53RecordSet.AliasTarget (Properties d)) ]
  end.

(** The store: objects in the order of their allocation; an address is a
    position. *)
Definition Store : Type := list Object.
Definition Address : Type := nat.

(** Replace the element at position [k]. *)
Fixpoint update (A : Type) (k : nat) (x : A) (l : list A) : list A :=
  match l, k with
  | [], _ => []
  | _ :: t, O => x :: t
  | h :: t, S k' => h :: update k' x t
  end.

(** Store-passing computations; [None] is a read or write outside the
    store, which no JavaScript program can do. *)
Definition M (A : Type) : Type := Store -> option (A * Store).

Definition ret (A : Type) (a : A) : M A :=
  fun s => Some (a, s).

Definition bind (A B : Type) (m : M A) (f : A -> M B) : M B :=
  fun s =>
    match m s with
    | Some (a, s') => f a s'
    | None => None
    end.

Notation "x <- m ;; k" := (bind m (fun x => k))
  (at level 61, m at next level, right associativity).
Notation "m ;;; k" := (bind m (fun _ => k))
  (at level 61, right associativity).

Definition alloc (o : Object) : M Address :=
  fun s => Some (List.length s, (s ++ [o])%list).

Definition read (a : Address) : M Object :=
  fun s =>
    match nth_error s a with
    | Some o => Some (o, s)
    | None => None
    end.

Definition write (a : Address) (o : Object) : M unit :=
  fun s => if Nat.ltb a (List.length s) then Some (tt, update a o s) else None.

(** The library's operations on objects. *)
Definition getRefS (resource : Address) : M Reference :=
  o <- read resource ;;
  ret (Ref (objectName o)).

Definition getAttributeS (resource : Address) (attributeName : string)
  : M Reference :=
  o <- read resource ;;
  ret (GetAtt (objectName o) attributeName).

Definition dependsOnS (dependent dependency : Address) : M unit :=
  d <- read dependency ;;
  o <- read dependent ;;
  write dependent (objectAddDependency o (objectName d)).

(** [FargateDeploymentResources] as the TypeScript holds it: fourteen
    references to objects. *)
Record Handles : Type := {
  clusterAt : Address;
  containerSecurityGroupAt : Address;
  loadBalancerSecurityGroupAt : Address;
  albIngressAt : Address;
  selfIngressAt : Address;
  loadBalancerAt : Address;
  executionRoleAt : Address;
  taskRoleAt : Address;
  taskAt : Address;
  targetGroupAt : Address;
  serviceAt : Address;
  listenerAt : Address;
  logGroupAt : Address;
  recordsetAt : Address
}.

(** [createFargateDeployment], lines 119-274, statement by statement.  The
    arguments of a call are evaluated before the call, in the order they are
    written; a sibling composer, like a factory, returns one new object. *)
Definition createFargateDeploymentS (name : string)
  (options : Options.FargateDeploymentOptions IAMRolePolicy) : M Handles :=
  cluster <-
    alloc (ClusterObject (createECSCluster (name ++ "Cluster")
      (if truthyFlag (Options.EnableContainerInsights options)
       then {| ECSCluster.ClusterSettings :=
                 Some [ {| ECSCluster.Name := "containerInsights";
                           ECSCluster.Value := "enabled" |} ] |}
       else {| ECSCluster.ClusterSettings := None |}))) ;;
  containerSecurityGroup <-
    alloc (SecurityGroupObject
      (createEC2SecurityGroup (name ++ "ContainerSecurityGroup")
        {| EC2SecurityGroup.GroupDescription :=
             "Access to the Fargate containers";
           EC2SecurityGroup.VpcId := Options.VpcId options;
           EC2SecurityGroup.SecurityGroupIngress := None |})) ;;
  loadBalancerSecurityGroup <-
    alloc (SecurityGroupObject
      (createEC2SecurityGroup (name ++ "LoadBalancerSecurityGroup")
        {| EC2SecurityGroup.GroupDescription :=
             "Access to the public facing load balancer";
           EC2SecurityGroup.VpcId := Options.VpcId options;
           EC2SecurityGroup.SecurityGroupIngress :=
             Some [ {| EC2SecurityGroup.CidrIp := "0.0.0.0/0";
                       EC2SecurityGroup.IpProtocol := "-1" |} ] |})) ;;
  albGroupId <- getRefS containerSecurityGroup ;;
  albSource <- getRefS loadBalancerSecurityGroup ;;
  albIngress <-
    alloc (SecurityGroupIngressObject
      (createEC2SecurityGroupIngress (name ++ "ALBIngress")
        {| EC2SecurityGroupIngress.Description := "Ingress from the public ALB";
           EC2SecurityGroupIngress.GroupId := albGroupId;
           EC2SecurityGroupIngress.IpProtocol := "-1";
           EC2SecurityGroupIngress.SourceSecurityGroupId := albSource |})) ;;
  selfGroupId <- getRefS containerSecurityGroup ;;
  selfSource <- getRefS containerSecurityGroup ;;
  selfIngress <-
    alloc (SecurityGroupIngressObject
      (createEC2SecurityGroupIngress (name ++ "SelfIngress")
        {| EC2SecurityGroupIngress.Description :=
             "Ingress from other containers in the same security group";
           EC2SecurityGroupIngress.GroupId := selfGroupId;
           EC2SecurityGroupIngress.IpProtocol := "-1";
           EC2SecurityGroupIngress.SourceSecurityGroupId := selfSource |})) ;;
  balancerGroup <- getRefS loadBalancerSecurityGroup ;;
  loadBalancer <-
    alloc (LoadBalancerObject
      (createElasticLoadBalancingV2LoadBalancer (name ++ "LoadBalancer")
        {| LoadBalancer.Scheme := "internet-facing";
           LoadBalancer.LoadBalancerAttributes :=
             [ {| LoadBalancer.Key := "idle_timeout.timeout_seconds";
                  LoadBalancer.Value := "30" |} ];
           LoadBalancer.Subnets := Options.PublicSubnets options;
           LoadBalancer.SecurityGroups := [ balancerGroup ] |})) ;;
  executionRole <-
    alloc (RoleObject (createFargateExecutionRole (name ++ "ExecutionRole"))) ;;
  taskRole <-
    alloc (RoleObject (createECSTaskRole (name ++ "TaskRole")
      {| ECSTaskRole.Policies := Options.Policies options |})) ;;
  logGroup <-
    alloc (LogGroupObject (createLogsLogGroup (name ++ "LogGroup")
      {| LogsLogGroup.LogGroupName := name |})) ;;
  executionRoleArn <- getAttributeS executionRole "Arn" ;;
  taskRoleArn <- getAttributeS taskRole "Arn" ;;
  logGroupRef <- getRefS logGroup ;;
  task <-
    alloc (TaskDefinitionObject (createFargateTaskDefinition (name ++ "Task")
      {| FargateTaskDefinition.spread := options;
         FargateTaskDefinition.ExecutionRoleArn := executionRoleArn;
         FargateTaskDefinition.TaskRoleArn := taskRoleArn;
         FargateTaskDefinition.LogGroup := logGroupRef |})) ;;
  targetGroup <-
    alloc (TargetGroupObject
      (createElasticLoadBalancingV2TargetGroup (name ++ "TargetGroup")
        {| TargetGroup.HealthCheckIntervalSeconds := 10%float;
           TargetGroup.HealthCheckPath :=
             orString (Options.HealthCheckUrl options) "/";
           TargetGroup.HealthCheckProtocol := "HTTP";
           TargetGroup.HealthCheckTimeoutSeconds := 5%float;
           TargetGroup.HealthyThresholdCount := 2%float;
           TargetGroup.Port := Options.ContainerPort options;
           TargetGroup.Protocol := "HTTP";
           TargetGroup.TargetType := "ip";
           TargetGroup.UnhealthyThresholdCount := 2%float;
           TargetGroup.VpcId := Options.VpcId options |})) ;;
  forwardTo <- getRefS targetGroup ;;
  balancerArn <- getRefS loadBalancer ;;
  listener <-
    alloc (ListenerObject
      (createElasticLoadBalancingV2Listener (name ++ "Listener")
        {| Listener.DefaultActions :=
             [ {| Listener.TargetGroupArn := forwardTo;
                  Listener.Type_ := "forward" |} ];
           Listener.LoadBalancerArn := balancerArn;
           Listener.Port := 443%float;
           Listener.Protocol := "HTTPS";
           Listener.Certificates :=
             [ {| Listener.CertificateArn :=
                    Options.CertificateArn options |} ] |})) ;;
  clusterRef <- getRefS cluster ;;
  containerGroup <- getRefS containerSecurityGroup ;;
  taskRef <- getRefS task ;;
  registerAt <- getRefS targetGroup ;;
  service <-
    alloc (ServiceObject (createECSService (name ++ "Service")
      {| ECSService.Cluster := clusterRef;
         ECSService.LaunchType := "FARGATE";
         ECSService.DeploymentConfiguration :=
           {| ECSService.MaximumPercent := 200%float;
              ECSService.MinimumHealthyPercent := 75%float |};
         ECSService.DesiredCount :=
           orNumber (Options.DesiredCount options) 2%float;
         ECSService.NetworkConfiguration :=
           {| ECSService.AwsvpcConfiguration :=
                {| ECSService.SecurityGroups := [ containerGroup ];
                   ECSService.Subnets := Options.PrivateSubnets options |} |};
         ECSService.TaskDefinition := taskRef;
         ECSService.LoadBalancers :=
           [ {| ECSService.ContainerName := Options.ServiceName options;
                ECSService.ContainerPort := Options.ContainerPort options;
                ECSService.TargetGroupArn := registerAt |} ] |})) ;;
  dependsOnS service listener ;;;
  hostedZoneId <- getAttributeS loadBalancer "CanonicalHostedZoneID" ;;
  dnsName <- getAttributeS loadBalancer "DNSName" ;;
  recordset <-
    alloc (RecordSetObject (createRoute53RecordSet (name ++ "RecordSet")
      {| Route53RecordSet.Name := Options.DomainName options;
         Route53RecordSet.Type_ := "A";
         Route53RecordSet.HostedZoneName := Options.ZoneName options;
         Route53RecordSet.AliasTarget :=
           {| Route53RecordSet.HostedZoneId := hostedZoneId;
              Route53RecordSet.DNSName := dnsName;
              Route53RecordSet.EvaluateTargetHealth := true |} |})) ;;
  ret {| clusterAt := cluster;
         containerSecurityGroupAt := containerSecurityGroup;
         loadBalancerSecurityGroupAt := loadBalancerSecurityGroup;
         albIngressAt := albIngress;
         selfIngressAt := selfIngress;
         loadBalancerAt := loadBalancer;
         executionRoleAt := executionRole;
         taskRoleAt := taskRole;
         taskAt := task;
         targetGroupAt := targetGroup;
         serviceAt := service;
         listenerAt := listener;
         logGroupAt := logGroup;
         recordsetAt := recordset |}.

(** The addresses a result holds, in the order of construction. *)
Definition addresses (h : Handles) : list Address :=
  [ clusterAt h; containerSecurityGroupAt h; loadBalancerSecurityGroupAt h;
    albIngressAt h; selfIngressAt h; loadBalancerAt h; executionRoleAt h;
    taskRoleAt h; logGroupAt h; taskAt h; targetGroupAt h; listenerAt h;
    serviceAt h; recordsetAt h ].

(** Reading an object at its TypeScript type. *)
Definition asCluster (o : Object) :=
  match o with ClusterObject d => Some d | _ => None end.
Definition asSecurityGroup (o : Object) :=
  match o with SecurityGroupObject d => Some d | _ => None end.
Definition asSecurityGroupIngress (o : Object) :=
  match o with SecurityGroupIngressObject d => Some d | _ => None end.
Definition asLoadBalancer (o : Object) :=
  match o with LoadBalancerObject d => Some d | _ => None end.
Definition asRole (o : Object) :=
  match o with RoleObject d => Some d | _ => None end.
Definition asLogGroup (o : Object) :=
  match o with LogGroupObject d => Some d | _ => None end.
Definition asTaskDefinition (o : Object) :=
  match o with TaskDefinitionObject d => Some d | _ => None end.
Definition asTargetGroup (o : Object) :=
  match o with TargetGroupObject d => Some d | _ => None end.
Definition asListener (o : Object) :=
  match o with ListenerObject d => Some d | _ => None end.
Definition asService (o : Object) :=
  match o with ServiceObject d => Some d | _ => None end.
Definition asRecordSet (o : Object) :=
  match o with RecordSetObject d => Some d | _ => None end.

Definition deref (A : Type) (as_ : Object -> option A) (s : Store)
  (a : Address) : option A :=
  match nth_error s a with
  | Some o => as_ o
  | None => None
  end.

Definition obind (A B : Type) (x : option A) (f : A -> option B) : option B :=
  match x with
  | Some a => f a
  | None => None
  end.

(** The record a caller reads through the fourteen references. *)
Definition snapshot (s : Store) (h : Handles)
  : option FargateDeploymentResources :=
  obind (deref asCluster s (clusterAt h)) (fun cluster =>
  obind (deref asSecurityGroup s (containerSecurityGroupAt h))
    (fun containerSecurityGroup =>
  obind (deref asSecurityGroup s (loadBalancerSecurityGroupAt h))
    (fun loadBalancerSecurityGroup =>
  obind (deref asSecurityGroupIngress s (albIngressAt h)) (fun albIngress =>
  obind (deref asSecurityGroupIngress s (selfIngressAt h)) (fun selfIngress =>
  obind (deref asLoadBalancer s (loadBalancerAt h)) (fun loadBalancer =>
  obind (deref asRole s (executionRoleAt h)) (fun executionRole =>
  obind (deref asRole s (taskRoleAt h)) (fun taskRole =>
  obind (deref asTaskDefinition s (taskAt h)) (fun task =>
  obind (deref asTargetGroup s (targetGroupAt h)) (fun targetGroup =>
  obind (deref asService s (serviceAt h)) (fun service =>
  obind (deref asListener s (listenerAt h)) (fun listener =>
  obind (deref asLogGroup s (logGroupAt h)) (fun logGroup =>
  obind (deref asRecordSet s (recordsetAt h)) (fun recordset =>
  Some {| cluster := cluster;
          containerSecurityGroup := containerSecurityGroup;
          loadBalancerSecurityGroup := loadBalancerSecurityGroup;
          albIngress := albIngress;
          selfIngress := selfIngress;
          loadBalancer := loadBalancer;
          executionRole := executionRole;
          taskRole := taskRole;
          task := task;
          targetGroup := targetGroup;
          service := service;
          listener := listener;
          logGroup := logGroup;
          recordset := recordset |})))))))))))))).

(** The descriptions of a result as objects, in the order the source
    constructs them (lines 123, 137, 145, 154, 161, 168, 180, 182, 186, 190,
    197, 213, 221, 247). *)
Definition objectsOf (r : FargateDeploymentResources) : list Object :=
  [ ClusterObject (cluster r);
    SecurityGroupObject (containerSecurityGroup r);
    SecurityGroupObject (loadBalancerSecurityGroup r);
    SecurityGroupIngressObject (albIngress r);
    SecurityGroupIngressObject (selfIngress r);
    LoadBalancerObject (loadBalancer r);
    RoleObject (executionRole r);
    RoleObject (taskRole r);
    LogGroupObject (logGroup r);
    TaskDefinitionObject (task r);
    TargetGroupObject (targetGroup r);
    ListenerObject (listener r);
    ServiceObject (service r);
    RecordSetObject (recordset r) ].

(** The fourteen addresses of a call that starts with [base] objects in the
    store. *)
Definition handlesFrom (base : nat) : Handles :=
  {| clusterAt := base + 0;
     containerSecurityGroupAt := base + 1;
     loadBalancerSecurityGroupAt := base + 2;
     albIngressAt := base + 3;
     selfIngressAt := base + 4;
     loadBalancerAt := base + 5;
     executionRoleAt := base + 6;
     taskRoleAt := base + 7;
     logGroupAt := base + 8;
     taskAt := base + 9;
     targetGroupAt := base + 10;
     listenerAt := base + 11;
     serviceAt := base + 12;
     recordsetAt := base + 13 |}.

(** The ordering edges of a result: (dependent, dependency), by logical
    name. *)
Definition dependencyEdges (r : FargateDeploymentResources)
  : list (string * string) :=
  flat_map (fun o => map (pair (objectName o)) (objectDependsOn o))
    (objectsOf r).

(** The logical names of a result, in the order of the record's fields. *)
Definition logicalNames (r : FargateDeploymentResources) : list string :=
  [ LogicalName (cluster r);
    LogicalName (containerSecurityGroup r);
    LogicalName (loadBalancerSecurityGroup r);
    LogicalName (albIngress r);
    LogicalName (selfIngress r);
    LogicalName (loadBalancer r);
    LogicalName (executionRole r);
    LogicalName (taskRole r);
    LogicalName (task r);
    LogicalName (targetGroup r);
    LogicalName (service r);
    LogicalName (listener r);
    LogicalName (logGroup r);
    LogicalName (recordset r) ].

(** The fourteen role suffixes, in the same order. *)
Definition roleSuffixes : list string :=
  [ "Cluster"; "ContainerSecurityGroup"; "LoadBalancerSecurityGroup";
    "ALBIngress"; "SelfIngress"; "LoadBalancer"; "ExecutionRole"; "TaskRole";
    "Task"; "TargetGroup"; "Service"; "Listener"; "LogGroup"; "RecordSet" ].

(** What the specification assumes of the sibling composers: like a
    factory, each returns a description under the logical name it is
    given. *)
Definition composersKeepNames : Prop :=
  (forall n, LogicalName (createFargateExecutionRole n) = n) /\
  (forall n o, LogicalName (createECSTaskRole n o) = n) /\
  (forall n o, LogicalName (createFargateTaskDefinition n o) = n).

(** And each returns it without an ordering edge: the specification has the
    dependency edge "used once: service must follow listener". *)
Definition composersRecordNoEdge : Prop :=
  (forall n, DependsOn (createFargateExecutionRole n) = []) /\
  (forall n o, DependsOn (createECSTaskRole n o) = []) /\
  (forall n o, DependsOn (createFargateTaskDefinition n o) = []).

(** ** The same function, with the caller's arrays in the heap

    The store above holds the descriptions only, and the subnet lists are
    values in it.  Here the heap also holds the arrays and objects the
    caller's options refer to, and the bags hold their addresses, as the
    TypeScript does.  The object literals and the reference values a call
    creates (line 150, 172-176, 214, 218, 231, 236 and the results of
    [getRef]) are new for each call and are kept inside the description
    they are written into. *)

(** The two sibling composers that are handed options, on the options held
    by reference. *)
Variable createECSTaskRoleByRef :
  string -> ECSTaskRoleByRef.Options -> ResourceDescription IAMRoleProps.
Variable createFargateTaskDefinitionByRef :
  string -> FargateTaskDefinitionByRef.Options ->
  ResourceDescription ECSTaskDefinitionProps.

(** A cell of the heap: a description, or an array or object of the
    caller. *)
Inductive Cell : Type :=
| ClusterCell (d : ResourceDescription ECSCluster.Props)
| SecurityGroupCell (d : ResourceDescription EC2SecurityGroup.Props)
| SecurityGroupIngressCell (d : ResourceDescription EC2SecurityGroupIngress.Props)
| LoadBalancerCell (d : ResourceDescription LoadBalancerByRef.Props)
| RoleCell (d : ResourceDescription IAMRoleProps)
| LogGroupCell (d : ResourceDescription LogsLogGroup.Props)
| TaskDefinitionCell (d : ResourceDescription ECSTaskDefinitionProps)
| TargetGroupCell (d : ResourceDescription TargetGroup.Props)
| ListenerCell (d : ResourceDescription Listener.Props)
| ServiceCell (d : ResourceDescription ECSServiceByRef.Props)
| RecordSetCell (d : ResourceDescription Route53RecordSet.Props)
| StringArrayCell (items : list string)
| PolicyArrayCell (items : list IAMRolePolicy)
| EnvironmentCell (entries : list (string * string)).

(** The logical name of a description; an array has none. *)
Definition cellName (c : Cell) : option string :=
  match c with
  | ClusterCell d => Some (LogicalName d)
  | SecurityGroupCell d => Some (LogicalName d)
  | SecurityGroupIngressCell d => Some (LogicalName d)
  | LoadBalancerCell d => Some (LogicalName d)
  | RoleCell d => Some (LogicalName d)
  | LogGroupCell d => Some (LogicalName d)
  | TaskDefinitionCell d => Some (LogicalName d)
  | TargetGroupCell d => Some (LogicalName d)
  | ListenerCell d => Some (LogicalName d)
  | ServiceCell d => Some (LogicalName d)
  | RecordSetCell d => Some (LogicalName d)
  | StringArrayCell _ => None
  | PolicyArrayCell _ => None
  | EnvironmentCell _ => None
  end.

(** What [dependsOn] writes to a description. *)
Definition cellAddDependency (c : Cell) (dependency : string) : option Cell :=
  match c with
  | ClusterCell d => Some (ClusterCell (addDependency d dependency))
  | SecurityGroupCell d => Some (SecurityGroupCell (addDependency d dependency))
  | SecurityGroupIngressCell d =>
      Some (SecurityGroupIngressCell (addDependency d dependency))
  | LoadBalancerCell d => Some (LoadBalancerCell (addDependency d dependency))
  | RoleCell d => Some (RoleCell (addDependency d dependency))
  | LogGroupCell d => Some (LogGroupCell (addDependency d dependency))
  | TaskDefinitionCell d =>
      Some (TaskDefinitionCell (addDependency d dependency))
  | TargetGroupCell d => Some (TargetGroupCell (addDependency d dependency))
  | ListenerCell d => Some (ListenerCell (addDependency d dependency))
  | ServiceCell d => Some (ServiceCell (addDependency d dependency))
  | RecordSetCell d => Some (RecordSetCell (addDependency d dependency))
  | StringArrayCell _ => None
  | PolicyArrayCell _ => None
  | EnvironmentCell _ => None
  end.

Definition Heap : Type := list Cell.

(** Heap-passing computations. *)
Definition HeapM (A : Type) : Type := Heap -> option (A * Heap).

Definition retH (A : Type) (a : A) : HeapM A :=
  fun s => Some (a, s).

Definition bindH (A B : Type) (m : HeapM A) (f : A -> HeapM B) : HeapM B :=
  fun s =>
    match m s with
    | Some (a, s') => f a s'
    | None => None
    end.

Notation "x <~ m ;; k" := (bindH m (fun x => k))
  (at level 61, m at next level, right associativity).
Notation "m ;;~ k" := (bindH m (fun _ => k))
  (at level 61, right associativity).

(** A factory, or a composer, returns a new object. *)
Definition allocH (c : Cell) : HeapM Address :=
  fun s => Some (List.length s, (s ++ [c])%list).

Definition getRefH (resource : Address) : HeapM Reference :=
  fun s =>
    match nth_error s resource with
    | Some c =>
        match cellName c with
        | Some n => Some (Ref n, s)
        | None => None
        end
    | None => None
    end.

Definition getAttributeH (resource : Address) (attributeName : string)
  : HeapM Reference :=
  fun s =>
    match nth_error s resource with
    | Some c =>
        match cellName c with
        | Some n => Some (GetAtt n attributeName, s)
        | None => None
        end
    | None => None
    end.

Definition dependsOnH (dependent dependency : Address) : HeapM unit :=
  fun s =>
    match nth_error s dependency with
    | Some d =>
        match cellName d, nth_error s dependent with
        | Some n, Some c =>
            match cellAddDependency c n with
            | Some c' => Some (tt, update dependent c' s)
            | None => None
            end
        | _, _ => None
        end
    | None => None
    end.

(** [createFargateDeployment], lines 119-274, on the heap.  The subnet
    arrays are stored as the references the options hold (lines 175, 232);
    the policy list and the spread options are handed on as they are (lines
    183, 191).  No statement reads or writes an array. *)
Definition createFargateDeploymentByRef (name : string)
  (options : OptionsByRef.FargateDeploymentOptions) : HeapM Handles :=
  cluster <~
    allocH (ClusterCell (createECSCluster (name ++ "Cluster")
      (if truthyFlag (OptionsByRef.EnableContainerInsights options)
       then {| ECSCluster.ClusterSettings :=
                 Some [ {| ECSCluster.Name := "containerInsights";
                           ECSCluster.Value := "enabled" |} ] |}
       else {| ECSCluster.ClusterSettings := None |}))) ;;
  containerSecurityGroup <~
    allocH (SecurityGroupCell
      (createEC2SecurityGroup (name ++ "ContainerSecurityGroup")
        {| EC2SecurityGroup.GroupDescription :=
             "Access to the Fargate containers";
           EC2SecurityGroup.VpcId := OptionsByRef.VpcId options;
           EC2SecurityGroup.SecurityGroupIngress := None |})) ;;
  loadBalancerSecurityGroup <~
    allocH (SecurityGroupCell
      (createEC2SecurityGroup (name ++ "LoadBalancerSecurityGroup")
        {| EC2SecurityGroup.GroupDescription :=
             "Access to the public facing load balancer";
           EC2SecurityGroup.VpcId := OptionsByRef.VpcId options;
           EC2SecurityGroup.SecurityGroupIngress :=
             Some [ {| EC2SecurityGroup.CidrIp := "0.0.0.0/0";
                       EC2SecurityGroup.IpProtocol := "-1" |} ] |})) ;;
  albGroupId <~ getRefH containerSecurityGroup ;;
  albSource <~ getRefH loadBalancerSecurityGroup ;;
  albIngress <~
    allocH (SecurityGroupIngressCell
      (createEC2SecurityGroupIngress (name ++ "ALBIngress")
        {| EC2SecurityGroupIngress.Description := "Ingress from the public ALB";
           EC2SecurityGroupIngress.GroupId := albGroupId;
           EC2SecurityGroupIngress.IpProtocol := "-1";
           EC2SecurityGroupIngress.SourceSecurityGroupId := albSource |})) ;;
  selfGroupId <~ getRefH containerSecurityGroup ;;
  selfSource <~ getRefH containerSecurityGroup ;;
  selfIngress <~
    allocH (SecurityGroupIngressCell
      (createEC2SecurityGroupIngress (name ++ "SelfIngress")
        {| EC2SecurityGroupIngress.Description :=
             "Ingress from other containers in the same security group";
           EC2SecurityGroupIngress.GroupId := selfGroupId;
           EC2SecurityGroupIngress.IpProtocol := "-1";
           EC2SecurityGroupIngress.SourceSecurityGroupId := selfSource |})) ;;
  balancerGroup <~ getRefH loadBalancerSecurityGroup ;;
  loadBalancer <~
    allocH (LoadBalancerCell
      (createElasticLoadBalancingV2LoadBalancerByRef (name ++ "LoadBalancer")
        {| LoadBalancerByRef.Scheme := "internet-facing";
           LoadBalancerByRef.LoadBalancerAttributes :=
             [ {| LoadBalancer.Key := "idle_timeout.timeout_seconds";
                  LoadBalancer.Value := "30" |} ];
           LoadBalancerByRef.Subnets := OptionsByRef.PublicSubnets options;
           LoadBalancerByRef.SecurityGroups := [ balancerGroup ] |})) ;;
  executionRole <~
    allocH (RoleCell (createFargateExecutionRole (name ++ "ExecutionRole"))) ;;
  taskRole <~
    allocH (RoleCell (createECSTaskRoleByRef (name ++ "TaskRole")
      {| ECSTaskRoleByRef.Policies := OptionsByRef.Policies options |})) ;;
  logGroup <~
    allocH (LogGroupCell (createLogsLogGroup (name ++ "LogGroup")
      {| LogsLogGroup.LogGroupName := name |})) ;;
  executionRoleArn <~ getAttributeH executionRole "Arn" ;;
  taskRoleArn <~ getAttributeH taskRole "Arn" ;;
  logGroupRef <~ getRefH logGroup ;;
  task <~
    allocH (TaskDefinitionCell
      (createFargateTaskDefinitionByRef (name ++ "Task")
        {| FargateTaskDefinitionByRef.spread := options;
           FargateTaskDefinitionByRef.ExecutionRoleArn := executionRoleArn;
           FargateTaskDefinitionByRef.TaskRoleArn := taskRoleArn;
           FargateTaskDefinitionByRef.LogGroup := logGroupRef |})) ;;
  targetGroup <~
    allocH (TargetGroupCell
      (createElasticLoadBalancingV2TargetGroup (name ++ "TargetGroup")
        {| TargetGroup.HealthCheckIntervalSeconds := 10%float;
           TargetGroup.HealthCheckPath :=
             orString (OptionsByRef.HealthCheckUrl options) "/";
           TargetGroup.HealthCheckProtocol := "HTTP";
           TargetGroup.HealthCheckTimeoutSeconds := 5%float;
           TargetGroup.HealthyThresholdCount := 2%float;
           TargetGroup.Port := OptionsByRef.ContainerPort options;
           TargetGroup.Protocol := "HTTP";
           TargetGroup.TargetType := "ip";
           TargetGroup.UnhealthyThresholdCount := 2%float;
           TargetGroup.VpcId := OptionsByRef.VpcId options |})) ;;
  forwardTo <~ getRefH targetGroup ;;
  balancerArn <~ getRefH loadBalancer ;;
  listener <~
    allocH (ListenerCell
      (createElasticLoadBalancingV2Listener (name ++ "Listener")
        {| Listener.DefaultActions :=
             [ {| Listener.TargetGroupArn := forwardTo;
                  Listener.Type_ := "forward" |} ];
           Listener.LoadBalancerArn := balancerArn;
           Listener.Port := 443%float;
           Listener.Protocol := "HTTPS";
           Listener.Certificates :=
             [ {| Listener.CertificateArn :=
                    OptionsByRef.CertificateArn options |} ] |})) ;;
  clusterRef <~ getRefH cluster ;;
  containerGroup <~ getRefH containerSecurityGroup ;;
  taskRef <~ getRefH task ;;
  registerAt <~ getRefH targetGroup ;;
  service <~
    allocH (ServiceCell (createECSServiceByRef (name ++ "Service")
      {| ECSServiceByRef.Cluster := clusterRef;
         ECSServiceByRef.LaunchType := "FARGATE";
         ECSServiceByRef.DeploymentConfiguration :=
           {| ECSService.MaximumPercent := 200%float;
              ECSService.MinimumHealthyPercent := 75%float |};
         ECSServiceByRef.DesiredCount :=
           orNumber (OptionsByRef.DesiredCount options) 2%float;
         ECSServiceByRef.NetworkConfiguration :=
           {| ECSServiceByRef.AwsvpcConfiguration :=
                {| ECSServiceByRef.SecurityGroups := [ containerGroup ];
                   ECSServiceByRef.Subnets :=
                     OptionsByRef.PrivateSubnets options |} |};
         ECSServiceByRef.TaskDefinition := taskRef;
         ECSServiceByRef.LoadBalancers :=
           [ {| ECSService.ContainerName := OptionsByRef.ServiceName options;
                ECSService.ContainerPort := OptionsByRef.ContainerPort options;
                ECSService.TargetGroupArn := registerAt |} ] |})) ;;
  dependsOnH service listener ;;~
  hostedZoneId <~ getAttributeH loadBalancer "CanonicalHostedZoneID" ;;
  dnsName <~ getAttributeH loadBalancer "DNSName" ;;
  recordset <~
    allocH (RecordSetCell (createRoute53RecordSet (name ++ "RecordSet")
      {| Route53RecordSet.Name := OptionsByRef.DomainName options;
         Route53RecordSet.Type_ := "A";
         Route53RecordSet.HostedZoneName := OptionsByRef.ZoneName options;
         Route53RecordSet.AliasTarget :=
           {| Route53RecordSet.HostedZoneId := hostedZoneId;
              Route53RecordSet.DNSName := dnsName;
              Route53RecordSet.EvaluateTargetHealth := true |} |})) ;;
  retH {| clusterAt := cluster;
          containerSecurityGroupAt := containerSecurityGroup;
          loadBalancerSecurityGroupAt := loadBalancerSecurityGroup;
          albIngressAt := albIngress;
          selfIngressAt := selfIngress;
          loadBalancerAt := loadBalancer;
          executionRoleAt := executionRole;
          taskRoleAt := taskRole;
          taskAt := task;
          targetGroupAt := targetGroup;
          serviceAt := service;
          listenerAt := listener;
          logGroupAt := logGroup;
          recordsetAt := recordset |}.

(** Two calls with the same arguments, one after the other. *)
Definition createFargateDeploymentByRefTwice (name : string)
  (options : OptionsByRef.FargateDeploymentOptions)
  : HeapM (Handles * Handles) :=
  first <~ createFargateDeploymentByRef name options ;;
  second <~ createFargateDeploymentByRef name options ;;
  retH (first, second).

(** The cells a call allocates: those it leaves in a heap that was empty. *)
Definition cellsOfACall (name : string)
  (options : OptionsByRef.FargateDeploymentOptions) : list Cell :=
  match createFargateDeploymentByRef name options [] with
  | Some (_, cells) => cells
  | None => []
  end.

(** [FargateDeploymentResources] with the arrays by reference. *)
Record ResourcesByRef : Type := {
  clusterR : ResourceDescription ECSCluster.Props;
  containerSecurityGroupR : ResourceDescription EC2SecurityGroup.Props;
  loadBalancerSecurityGroupR : ResourceDescription EC2SecurityGroup.Props;
  albIngressR : ResourceDescription EC2SecurityGroupIngress.Props;
  selfIngressR : ResourceDescription EC2SecurityGroupIngress.Props;
  loadBalancerR : ResourceDescription LoadBalancerByRef.Props;
  executionRoleR : ResourceDescription IAMRoleProps;
  taskRoleR : ResourceDescription IAMRoleProps;
  taskR : ResourceDescription ECSTaskDefinitionProps;
  targetGroupR : ResourceDescription TargetGroup.Props;
  serviceR : ResourceDescription ECSServiceByRef.Props;
  listenerR : ResourceDescription Listener.Props;
  logGroupR : ResourceDescription LogsLogGroup.Props;
  recordsetR : ResourceDescription Route53RecordSet.Props
}.

Definition derefH (A : Type) (as_ : Cell -> option A) (s : Heap)
  (a : Address) : option A :=
  match nth_error s a with
  | Some c => as_ c
  | None => None
  end.

(** The record a caller reads through the fourteen references; the subnet
    properties it finds are references again. *)
Definition snapshotByRef (s : Heap) (h : Handles) : option ResourcesByRef :=
  obind (derefH (fun c => match c with ClusterCell d => Some d | _ => None end)
           s (clusterAt h)) (fun cluster =>
  obind (derefH (fun c => match c with SecurityGroupCell d => Some d
                                     | _ => None end)
           s (containerSecurityGroupAt h)) (fun containerSecurityGroup =>
  obind (derefH (fun c => match c with SecurityGroupCell d => Some d
                                     | _ => None end)
           s (loadBalancerSecurityGroupAt h)) (fun loadBalancerSecurityGroup =>
  obind (derefH (fun c => match c with SecurityGroupIngressCell d => Some d
                                     | _ => None end)
           s (albIngressAt h)) (fun albIngress =>
  obind (derefH (fun c => match c with SecurityGroupIngressCell d => Some d
                                     | _ => None end)
           s (selfIngressAt h)) (fun selfIngress =>
  obind (derefH (fun c => match c with LoadBalancerCell d => Some d
                                     | _ => None end)
           s (loadBalancerAt h)) (fun loadBalancer =>
  obind (derefH (fun c => match c with RoleCell d => Some d | _ => None end)
           s (executionRoleAt h)) (fun executionRole =>
  obind (derefH (fun c => match c with RoleCell d => Some d | _ => None end)
           s (taskRoleAt h)) (fun taskRole =>
  obind (derefH (fun c => match c with TaskDefinitionCell d => Some d
                                     | _ => None end)
           s (taskAt h)) (fun task =>
  obind (derefH (fun c => match c with TargetGroupCell d => Some d
                                     | _ => None end)
           s (targetGroupAt h)) (fun targetGroup =>
  obind (derefH (fun c => match c with ServiceCell d => Some d
                                     | _ => None end)
           s (serviceAt h)) (fun service =>
  obind (derefH (fun c => match c with ListenerCell d => Some d
                                     | _ => None end)
           s (listenerAt h)) (fun listener =>
  obind (derefH (fun c => match c with LogGroupCell d => Some d
                                     | _ => None end)
           s (logGroupAt h)) (fun logGroup =>
  obind (derefH (fun c => match c with RecordSetCell d => Some d
                                     | _ => None end)
           s (recordsetAt h)) (fun recordset =>
  Some {| clusterR := cluster;
          containerSecurityGroupR := containerSecurityGroup;
          loadBalancerSecurityGroupR := loadBalancerSecurityGroup;
          albIngressR := albIngress;
          selfIngressR := selfIngress;
          loadBalancerR := loadBalancer;
          executionRoleR := executionRole;
          taskRoleR := taskRole;
          taskR := task;
          targetGroupR := targetGroup;
          serviceR := service;
          listenerR := listener;
          logGroupR := logGroup;
          recordsetR := recordset |})))))))))))))).

(** [result.loadBalancer.Properties.Subnets]: the array a result's load
    balancer holds, read through the reference. *)
Definition loadBalancerSubnets (s : Heap) (h : Handles)
  : option (list string) :=
  obind (snapshotByRef s h) (fun r =>
  match nth_error s (LoadBalancerByRef.Subnets (Properties (loadBalancerR r)))
  with
  | Some (StringArrayCell items) => Some items
  | _ => None
  end).

(** [array.push(item)]. *)
Definition arrayPush (array : Address) (item : string) : HeapM unit :=
  fun s =>
    match nth_error s array with
    | Some (StringArrayCell items) =>
        Some (tt, update array (StringArrayCell (items ++ [item])) s)
    | _ => None
    end.

(** [result.loadBalancer.Properties.Subnets.push(item)], what a caller may
    do with a result. *)
Definition pushLoadBalancerSubnet (h : Handles) (item : string)
  : HeapM unit :=
  fun s =>
    match snapshotByRef s h with
    | Some r =>
        arrayPush (LoadBalancerByRef.Subnets (Properties (loadBalancerR r)))
          item s
    | None => None
    end.

(** The role suffixes in the order of construction, as [objectsOf] lists
    the descriptions. *)
Definition constructionSuffixes : list string :=
  [ "Cluster"; "ContainerSecurityGroup"; "LoadBalancerSecurityGroup";
    "ALBIngress"; "SelfIngress"; "LoadBalancer"; "ExecutionRole"; "TaskRole";
    "LogGroup"; "Task"; "TargetGroup"; "Listener"; "Service"; "RecordSet" ].

(** [l] starts with [prefix]. *)
Fixpoint startsWithList (l prefix : list Ascii.ascii) {struct prefix}
  : bool :=
  match prefix, l with
  | [], _ => true
  | p :: prefix', c :: l' => Ascii.eqb p c && startsWithList l' prefix'
  | _ :: _, [] => false
  end.

(** [s.endsWith(suffix)], read from the last character backwards. *)
Definition endsWith (s suffix : string) : bool :=
  startsWithList (rev (list_ascii_of_string s))
    (rev (list_ascii_of_string suffix)).

(** No string of the list ends with another string of the list. *)
Definition suffixFree (l : list string) : bool :=
  forallb (fun a => forallb (fun b => implb (endsWith a b) (a =? b)) l) l.

(** Proof step: find, among the first fourteen objects, the one a reference
    points to. *)
Ltac object_at j :=
  exists j; eexists; split; [lia | split; reflexivity].

Ltac earlier_object :=
  first [ object_at 0 | object_at 1 | object_at 2 | object_at 3 | object_at 4
        | object_at 5 | object_at 6 | object_at 7 | object_at 8 | object_at 9
        | object_at 10 | object_at 11 | object_at 12 | object_at 13 ].

(** ** Stores: positions past a prefix *)

Lemma nth_error_shift (A : Type) (s l : list A) (k : nat) :
  nth_error (s ++ l) (List.length s + k) = nth_error l k.
Proof.
  induction s as [| x s IH]; simpl.
  - reflexivity.
  - exact IH.
Qed.

Lemma nth_error_keep (A : Type) (s l : list A) (k : nat) :
  k < List.length s -> nth_error (s ++ l) k = nth_error s k.
Proof.
  revert k; induction s as [| x s IH]; intros k Hk; simpl in *.
  - lia.
  - destruct k as [| k]; simpl.
    + reflexivity.
    + apply IH; lia.
Qed.

Lemma update_shift (A : Type) (s l : list A) (k : nat) (x : A) :
  update (List.length s + k) x (s ++ l) = (s ++ update k x l)%list.
Proof.
  induction s as [| y s IH]; simpl.
  - reflexivity.
  - now rewrite IH.
Qed.

Lemma nth_error_in_range (A : Type) (l : list A) (k : nat) (x : A) :
  nth_error l k = Some x -> k < List.length l.
Proof.
  intros H. apply nth_error_Some. congruence.
Qed.

(** ** One statement of the composer at a time *)

Lemma alloc_shift (B : Type) (o : Object) (f : Address -> M B)
  (s l : Store) :
  bind (alloc o) f (s ++ l)%list
  = f (List.length s + List.length l) (s ++ (l ++ [o]))%list.
Proof.
  unfold bind, alloc.
  now rewrite length_app, <- app_assoc.
Qed.

Lemma getRefS_shift (B : Type) (k : nat) (o : Object)
  (f : Reference -> M B) (s l : Store) :
  nth_error l k = Some o ->
  bind (getRefS (List.length s + k)) f (s ++ l)%list
  = f (Ref (objectName o)) (s ++ l)%list.
Proof.
  intros H. unfold getRefS, bind, read, ret.
  now rewrite nth_error_shift, H.
Qed.

Lemma getAttributeS_shift (B : Type) (k : nat) (o : Object)
  (attributeName : string) (f : Reference -> M B) (s l : Store) :
  nth_error l k = Some o ->
  bind (getAttributeS (List.length s + k) attributeName) f (s ++ l)%list
  = f (GetAtt (objectName o) attributeName) (s ++ l)%list.
Proof.
  intros H. unfold getAttributeS, bind, read, ret.
  now rewrite nth_error_shift, H.
Qed.

Lemma dependsOnS_shift (B : Type) (k j : nat) (o d : Object)
  (f : unit -> M B) (s l : Store) :
  nth_error l k = Some o ->
  nth_error l j = Some d ->
  bind (dependsOnS (List.length s + k) (List.length s + j)) f (s ++ l)%list
  = f tt (s ++ update k (objectAddDependency o (objectName d)) l)%list.
Proof.
  intros Ho Hd. unfold dependsOnS, bind, read, write.
  rewrite nth_error_shift, Hd; cbv beta iota.
  rewrite nth_error_shift, Ho; cbv beta iota.
  apply nth_error_in_range in Ho.
  rewrite length_app.
  destruct (Nat.ltb_spec (List.length s + k) (List.length s + List.length l))
    as [_ | Hge]; [| lia].
  now rewrite update_shift.
Qed.

(** The call allocates the fourteen descriptions of the pure result, in the
    order of construction, after whatever the store held, and returns their
    addresses. *)
Lemma createFargateDeploymentS_run (name : string)
  (options : Options.FargateDeploymentOptions IAMRolePolicy) (s : Store) :
  createFargateDeploymentS name options s
  = Some (handlesFrom (List.length s),
          (s ++ objectsOf (createFargateDeployment name options))%list).
Proof.
  rewrite <- (app_nil_r s) at 1.
  unfold createFargateDeploymentS.
  repeat first
    [ rewrite alloc_shift
    | erewrite getRefS_shift by reflexivity
    | erewrite getAttributeS_shift by reflexivity
    | erewrite dependsOnS_shift by reflexivity ];
    cbn [List.length app update].
  reflexivity.
Qed.

(** ** Template literals: [`${name}Suffix`] *)

Lemma length_append (a b : string) :
  String.length (a ++ b) = String.length a + String.length b.
Proof.
  induction a as [| c a IH]; simpl.
  - reflexivity.
  - now rewrite IH.
Qed.

(** Two names with the same suffix are equal only if their prefixes are. *)
Lemma append_same_suffix (suffix a b : string) :
  a ++ suffix = b ++ suffix -> a = b.
Proof.
  revert b; induction a as [| c a IH]; intros [| d b] H; simpl in H.
  - reflexivity.
  - apply (f_equal String.length) in H. simpl in H.
    rewrite length_append in H. lia.
  - apply (f_equal String.length) in H. simpl in H.
    rewrite length_append in H. lia.
  - injection H as Hc Hrest. subst d. f_equal. now apply IH.
Qed.

(** A name with a suffix that is not empty is not its own prefix. *)
Lemma append_suffix_differs (a suffix : string) :
  suffix <> "" -> a ++ suffix <> a.
Proof.
  intros Hs H. apply (f_equal String.length) in H.
  rewrite length_append in H.
  destruct suffix as [| c suffix]; [congruence | simpl in H; lia].
Qed.

(** The names of one list of suffixes under two prefixes. *)
Lemma same_suffixes_other_prefix (a b : string) (suffixes : list string) :
  a <> b ->
  Forall2
    (fun n n' =>
       n <> n' /\
       exists suffix,
         In suffix suffixes /\ n = a ++ suffix /\ n' = b ++ suffix)
    (map (append a) suffixes) (map (append b) suffixes).
Proof.
  intros Hdistinct.
  induction suffixes as [| suffix rest IH]; cbn; constructor.
  - split.
    + intros Heq. apply Hdistinct. now apply append_same_suffix in Heq.
    + exists suffix. repeat split. now left.
  - eapply Forall2_impl; [| exact IH].
    intros n n' (Hne & s & Hin & Hn & Hn').
    split; [exact Hne |]. exists s. split; [now right | now split].
Qed.

(** ** Logical names *)

(** C1.  If the three sibling composers keep the logical name they are
    given, every description returned by [createFargateDeployment] has as
    logical name the prefix followed by its role suffix (the fourteen names,
    in the order of the result's fields).  For a second call with another
    prefix and the same options, each name is paired with the name of the
    same role: the two have the same suffix, one of the fourteen, and differ
    (only) in the prefix. *)
Theorem logical_names_prefix_then_role (name other : string)
  (options : Options.FargateDeploymentOptions IAMRolePolicy) :
  composersKeepNames ->
  logicalNames (createFargateDeployment name options)
  = map (append name) roleSuffixes
  /\ (name <> other ->
      Forall2
        (fun n n' =>
           n <> n' /\
           exists suffix,
             In suffix roleSuffixes /\
             n = name ++ suffix /\ n' = other ++ suffix)
        (logicalNames (createFargateDeployment name options))
        (logicalNames (createFargateDeployment other options))).
Proof.
  intros (Hexecution & Hrole & Htask).
  assert (Hnames : forall p,
    logicalNames (createFargateDeployment p options)
    = map (append p) roleSuffixes).
  { intros p. unfold logicalNames, createFargateDeployment; cbn.
    now rewrite Hexecution, Hrole, Htask. }
  split; [apply Hnames |].
  intros Hdistinct. rewrite !Hnames.
  now apply same_suffixes_other_prefix.
Qed.

(** X3.  Without any assumption on the sibling composers: the eleven
    descriptions built here through the library's factories are named by the
    prefix followed by their role, and the three composers are called with
    the prefix followed by [ExecutionRole], [TaskRole] (and the caller's
    policy list) and [Task]. *)
Theorem names_given_to_factories_and_composers (name : string)
  (options : Options.FargateDeploymentOptions IAMRolePolicy) :
  let r := createFargateDeployment name options in
  map objectName
    [ ClusterObject (cluster r);
      SecurityGroupObject (containerSecurityGroup r);
      SecurityGroupObject (loadBalancerSecurityGroup r);
      SecurityGroupIngressObject (albIngress r);
      SecurityGroupIngressObject (selfIngress r);
      LoadBalancerObject (loadBalancer r);
      LogGroupObject (logGroup r);
      TargetGroupObject (targetGroup r);
      ListenerObject (listener r);
      ServiceObject (service r);
      RecordSetObject (recordset r) ]
  = map (append name)
      [ "Cluster"; "ContainerSecurityGroup"; "LoadBalancerSecurityGroup";
        "ALBIngress"; "SelfIngress"; "LoadBalancer"; "LogGroup";
        "TargetGroup"; "Listener"; "Service"; "RecordSet" ]
  /\ executionRole r = createFargateExecutionRole (name ++ "ExecutionRole")
  /\ taskRole r
     = createECSTaskRole (name ++ "TaskRole")
         {| ECSTaskRole.Policies := Options.Policies options |}
  /\ exists handed,
       task r = createFargateTaskDefinition (name ++ "Task") handed
       /\ FargateTaskDefinition.spread handed = options.
Proof.
  intros r. subst r. unfold createFargateDeployment; cbn.
  split; [reflexivity |].
  split; [reflexivity |].
  split; [reflexivity |].
  eexists. split; reflexivity.
Qed.

(** C5, as amended.  The log group's [LogGroupName] is the name argument
    itself; its logical name is that name followed by [LogGroup], as for the
    other thirteen descriptions; so the two are never equal. *)
Theorem log_group_name_is_the_bare_prefix (name : string)
  (options : Options.FargateDeploymentOptions IAMRolePolicy) :
  let logGroup := logGroup (createFargateDeployment name options) in
  LogsLogGroup.LogGroupName (Properties logGroup) = name
  /\ LogicalName logGroup = name ++ "LogGroup"
  /\ LogicalName logGroup <> LogsLogGroup.LogGroupName (Properties logGroup).
Proof.
  cbn. repeat split.
  apply append_suffix_differs. discriminate.
Qed.

(** ** The cluster *)

(** X13.  The cluster's bag as the source writes it.  With
    [EnableContainerInsights: true] the settings list is the one entry
    [containerInsights = enabled].  With [false], or with the option
    omitted, the bag is the empty object [{}]: the [ClusterSettings]
    property is absent. *)
Theorem cluster_settings_only_when_enabled (name : string)
  (options : Options.FargateDeploymentOptions IAMRolePolicy) :
  let cluster := cluster (createFargateDeployment name options) in
  match Options.EnableContainerInsights options with
  | Some true =>
      ECSCluster.ClusterSettings (Properties cluster)
      = Some [ {| ECSCluster.Name := "containerInsights";
                  ECSCluster.Value := "enabled" |} ]
  | Some false | None =>
      Properties cluster = {| ECSCluster.ClusterSettings := None |}
  end.
Proof.
  unfold createFargateDeployment; cbn.
  destruct (Options.EnableContainerInsights options) as [[|] |];
    reflexivity.
Qed.

(** C4.  With [EnableContainerInsights: true] the settings the cluster is
    created with contain the entry [containerInsights = enabled]; with
    [false], or with the option omitted, the cluster is created with no
    setting: its settings are empty. *)
Theorem cluster_settings_follow_the_flag (name : string)
  (options : Options.FargateDeploymentOptions IAMRolePolicy) :
  let cluster := cluster (createFargateDeployment name options) in
  match Options.EnableContainerInsights options with
  | Some true =>
      In {| ECSCluster.Name := "containerInsights";
            ECSCluster.Value := "enabled" |}
         (configuredSettings (Properties cluster))
  | Some false | None => configuredSettings (Properties cluster) = []
  end.
Proof.
  unfold createFargateDeployment, configuredSettings; cbn.
  destruct (Options.EnableContainerInsights options) as [[|] |]; cbn.
  - left. reflexivity.
  - reflexivity.
  - reflexivity.
Qed.

(** ** The target group *)

(** C3, as amended.  The target group has the fixed health-check policy
    (interval 10, timeout 5, both thresholds 2, protocols HTTP, target type
    ip) and the container port; its health-check path is the caller's
    [HealthCheckUrl] when that is supplied and is not the empty string, and
    ["/"] when it is omitted or empty. *)
Theorem target_group_health_check (name : string)
  (options : Options.FargateDeploymentOptions IAMRolePolicy) :
  let properties := Properties (targetGroup (createFargateDeployment name options)) in
  TargetGroup.HealthCheckIntervalSeconds properties = 10%float
  /\ TargetGroup.HealthCheckTimeoutSeconds properties = 5%float
  /\ TargetGroup.HealthyThresholdCount properties = 2%float
  /\ TargetGroup.UnhealthyThresholdCount properties = 2%float
  /\ TargetGroup.HealthCheckProtocol properties = "HTTP"
  /\ TargetGroup.Protocol properties = "HTTP"
  /\ TargetGroup.TargetType properties = "ip"
  /\ TargetGroup.Port properties = Options.ContainerPort options
  /\ TargetGroup.HealthCheckPath properties
     = match Options.HealthCheckUrl options with
       | Some "" => "/"
       | Some url => url
       | None => "/"
       end.
Proof.
  unfold createFargateDeployment; cbn.
  repeat (split; [reflexivity |]).
  unfold orString, truthyString.
  destruct (Options.HealthCheckUrl options) as [[| c url] |]; reflexivity.
Qed.

(** C9.  The target group is in the caller's VPC, the one both security
    groups are scoped to. *)
Theorem target_group_in_the_callers_vpc (name : string)
  (options : Options.FargateDeploymentOptions IAMRolePolicy) :
  let r := createFargateDeployment name options in
  TargetGroup.VpcId (Properties (targetGroup r)) = Options.VpcId options
  /\ EC2SecurityGroup.VpcId (Properties (containerSecurityGroup r))
     = TargetGroup.VpcId (Properties (targetGroup r))
  /\ EC2SecurityGroup.VpcId (Properties (loadBalancerSecurityGroup r))
     = TargetGroup.VpcId (Properties (targetGroup r)).
Proof.
  intros r. subst r. unfold createFargateDeployment; cbn.
  split; [| split]; reflexivity.
Qed.

(** ** The service *)

(** X1.  What the service description holds, field by field.
    [DesiredCount] is [options.DesiredCount || 2]: the caller's value when
    it is supplied and truthy, and 2 when it is omitted, zero or NaN. *)
Theorem service_description (name : string)
  (options : Options.FargateDeploymentOptions IAMRolePolicy) :
  let r := createFargateDeployment name options in
  let properties := Properties (service r) in
  ECSService.LaunchType properties = "FARGATE"
  /\ ECSService.DeploymentConfiguration properties
     = {| ECSService.MaximumPercent := 200%float;
          ECSService.MinimumHealthyPercent := 75%float |}
  /\ ECSService.DesiredCount properties
     = match Options.DesiredCount options with
       | Some count => if is_zero count || is_nan count then 2%float else count
       | None => 2%float
       end
  /\ ECSService.NetworkConfiguration properties
     = {| ECSService.AwsvpcConfiguration :=
            {| ECSService.SecurityGroups :=
                 [ getRef (containerSecurityGroup r) ];
               ECSService.Subnets := Options.PrivateSubnets options |} |}
  /\ ECSService.TaskDefinition properties = getRef (task r)
  /\ ECSService.Cluster properties = getRef (cluster r)
  /\ ECSService.LoadBalancers properties
     = [ {| ECSService.ContainerName := Options.ServiceName options;
            ECSService.ContainerPort := Options.ContainerPort options;
            ECSService.TargetGroupArn := getRef (targetGroup r) |} ].
Proof.
  intros r properties. subst properties r.
  unfold createFargateDeployment; cbn.
  repeat (split; [reflexivity |]).
  split; [| repeat split].
  unfold orNumber, truthyNumber.
  destruct (Options.DesiredCount options) as [count |]; [| reflexivity].
  unfold is_zero, is_nan.
  match goal with |- context [negb ?falsy] => now destruct falsy end.
Qed.

(** C10.  The service registers with exactly one load balancer entry; its
    container name is the caller's [ServiceName], whatever the name prefix,
    and its container port the caller's [ContainerPort]. *)
Theorem service_registers_one_container (name : string)
  (options : Options.FargateDeploymentOptions IAMRolePolicy) :
  exists entry,
    ECSService.LoadBalancers
      (Properties (service (createFargateDeployment name options)))
    = [ entry ]
    /\ ECSService.ContainerName entry = Options.ServiceName options
    /\ ECSService.ContainerPort entry = Options.ContainerPort options.
Proof.
  unfold createFargateDeployment; cbn.
  eexists. split; [reflexivity |].
  cbn. split; reflexivity.
Qed.

(** ** The ordering edge *)

(** C6.  If the sibling composers record no edge of their own, the result
    holds exactly one ordering edge: the service of this call depends on the
    listener of this call, [`${name}Listener`], which is not the listener of
    a call with any other prefix. *)
Theorem one_edge_service_after_listener (name : string)
  (options : Options.FargateDeploymentOptions IAMRolePolicy) :
  composersRecordNoEdge ->
  let r := createFargateDeployment name options in
  dependencyEdges r = [ (LogicalName (service r), LogicalName (listener r)) ]
  /\ DependsOn (service r) = [ LogicalName (listener r) ]
  /\ LogicalName (service r) = name ++ "Service"
  /\ LogicalName (listener r) = name ++ "Listener"
  /\ forall other options',
       other <> name ->
       ~ In (LogicalName (listener (createFargateDeployment other options')))
            (DependsOn (service r)).
Proof.
  intros (Hexecution & Hrole & Htask) r. subst r.
  unfold dependencyEdges, createFargateDeployment; cbn.
  rewrite Hexecution, Hrole, Htask; cbn.
  repeat (split; [reflexivity |]).
  intros other options' Hother [Heq | []].
  apply Hother. symmetry. now apply append_same_suffix in Heq.
Qed.

(** ** References *)

(** C8.  The fourteen descriptions are allocated in the order
    [objectsOf] lists them.  Every reference in a bag this function builds
    points to (the logical name of) a description of the same call that was
    constructed earlier.  The task definition is the sibling composer's,
    handed the options and three references, to the execution role, the task
    role and the log group of this call, all constructed before it.  In
    particular the listener forwards to this call's target group and is
    attached to this call's load balancer, and the DNS record's alias target
    is the [CanonicalHostedZoneID] and [DNSName] of this call's load
    balancer. *)
Theorem references_stay_within_the_call (name : string)
  (options : Options.FargateDeploymentOptions IAMRolePolicy) :
  let r := createFargateDeployment name options in
  (forall s,
     createFargateDeploymentS name options s
     = Some (handlesFrom (List.length s), (s ++ objectsOf r)%list))
  /\ (forall k o reference,
        nth_error (objectsOf r) k = Some o ->
        In reference (objectReferences o) ->
        exists j o',
          j < k /\ nth_error (objectsOf r) j = Some o'
          /\ target reference = objectName o')
  /\ task r
     = createFargateTaskDefinition (name ++ "Task")
         {| FargateTaskDefinition.spread := options;
            FargateTaskDefinition.ExecutionRoleArn :=
              getAttribute (executionRole r) "Arn";
            FargateTaskDefinition.TaskRoleArn :=
              getAttribute (taskRole r) "Arn";
            FargateTaskDefinition.LogGroup := getRef (logGroup r) |}
  /\ nth_error (objectsOf r) 6 = Some (RoleObject (executionRole r))
  /\ nth_error (objectsOf r) 7 = Some (RoleObject (taskRole r))
  /\ nth_error (objectsOf r) 8 = Some (LogGroupObject (logGroup r))
  /\ nth_error (objectsOf r) 9 = Some (TaskDefinitionObject (task r))
  /\ Listener.DefaultActions (Properties (listener r))
     = [ {| Listener.TargetGroupArn := getRef (targetGroup r);
            Listener.Type_ := "forward" |} ]
  /\ Listener.LoadBalancerArn (Properties (listener r))
     = getRef (loadBalancer r)
  /\ Route53RecordSet.AliasTarget (Properties (recordset r))
     = {| Route53RecordSet.HostedZoneId :=
            getAttribute (loadBalancer r) "CanonicalHostedZoneID";
          Route53RecordSet.DNSName := getAttribute (loadBalancer r) "DNSName";
          Route53RecordSet.EvaluateTargetHealth := true |}.
Proof.
  intros r. split; [| split].
  - intros s. apply createFargateDeploymentS_run.
  - intros k o reference Hk Hin.
    do 14 (destruct k as [| k];
           [ injection Hk as Ho; subst o; cbn in Hin;
             repeat (destruct Hin as [Hin | Hin];
                     [subst reference; earlier_object |]);
             contradiction
           | ]).
    cbn in Hk. destruct k; discriminate Hk.
  - subst r. unfold createFargateDeployment; cbn.
    repeat split.
Qed.

(** ** Effects *)

(** Through the fourteen addresses of a call the caller reads the pure
    result, whatever was in the store before the call and whatever is
    allocated after it. *)
Lemma snapshot_of_a_call (name : string)
  (options : Options.FargateDeploymentOptions IAMRolePolicy)
  (s later : Store) :
  snapshot
    (s ++ objectsOf (createFargateDeployment name options) ++ later)%list
    (handlesFrom (List.length s))
  = Some (createFargateDeployment name options).
Proof.
  unfold snapshot, deref, handlesFrom.
  cbn [clusterAt containerSecurityGroupAt loadBalancerSecurityGroupAt
       albIngressAt selfIngressAt loadBalancerAt executionRoleAt taskRoleAt
       taskAt targetGroupAt serviceAt listenerAt logGroupAt recordsetAt].
  rewrite !nth_error_shift.
  reflexivity.
Qed.

(** The addresses of a call are the next fourteen positions of the store. *)
Lemma addresses_of_a_call (base : nat) :
  addresses (handlesFrom base) = seq base 14.
Proof.
  unfold addresses, handlesFrom; cbn.
  repeat (f_equal; try lia).
Qed.

(** ** Names never clash *)

Lemma append_same_prefix (p a b : string) :
  p ++ a = p ++ b -> a = b.
Proof.
  induction p as [| c p IH]; simpl; intros H.
  - exact H.
  - injection H as H. now apply IH.
Qed.

Lemma list_ascii_of_append (a b : string) :
  list_ascii_of_string (a ++ b)
  = (list_ascii_of_string a ++ list_ascii_of_string b)%list.
Proof.
  induction a as [| c a IH]; simpl.
  - reflexivity.
  - now rewrite IH.
Qed.

Lemma startsWithList_app (p q : list Ascii.ascii) :
  startsWithList (p ++ q) p = true.
Proof.
  induction p as [| c p IH]; simpl.
  - reflexivity.
  - now rewrite Ascii.eqb_refl.
Qed.

(** Two equal names: one of the two suffixes ends with the other. *)
Lemma equal_names_end_alike (a b s1 s2 : string) :
  a ++ s1 = b ++ s2 -> endsWith s1 s2 = true \/ endsWith s2 s1 = true.
Proof.
  intros H. apply (f_equal list_ascii_of_string) in H.
  rewrite !list_ascii_of_append in H.
  apply app_eq_app in H. destruct H as (l & [(_ & H) | (_ & H)]).
  - right. unfold endsWith. rewrite H, rev_app_distr.
    apply startsWithList_app.
  - left. unfold endsWith. rewrite H, rev_app_distr.
    apply startsWithList_app.
Qed.

Lemma suffixFree_sound (l : list string) (a b : string) :
  suffixFree l = true -> In a l -> In b l -> endsWith a b = true -> a = b.
Proof.
  unfold suffixFree. intros Hfree Ha Hb Hends.
  rewrite forallb_forall in Hfree. specialize (Hfree a Ha).
  rewrite forallb_forall in Hfree. specialize (Hfree b Hb).
  rewrite Hends in Hfree. now apply String.eqb_eq.
Qed.

(** No role suffix ends with another role suffix. *)
Lemma roleSuffixes_suffixFree : suffixFree roleSuffixes = true.
Proof.
  vm_compute. reflexivity.
Qed.

(** A name determines its prefix and its role. *)
Lemma name_determines_prefix_and_role (p q s1 s2 : string) :
  In s1 roleSuffixes -> In s2 roleSuffixes ->
  p ++ s1 = q ++ s2 -> p = q /\ s1 = s2.
Proof.
  intros H1 H2 Heq.
  assert (Hsame : s1 = s2).
  { destruct (equal_names_end_alike _ _ _ _ Heq) as [Hends | Hends].
    - now apply (@suffixFree_sound roleSuffixes s1 s2 roleSuffixes_suffixFree).
    - symmetry.
      now apply (@suffixFree_sound roleSuffixes s2 s1 roleSuffixes_suffixFree). }
  subst s2. split; [| reflexivity].
  now apply append_same_suffix in Heq.
Qed.

Lemma NoDup_map_append (p : string) (l : list string) :
  NoDup l -> NoDup (map (append p) l).
Proof.
  induction 1 as [| s l Hnotin Hnodup IH]; cbn; constructor.
  - rewrite in_map_iff. intros (s' & Heq & Hin).
    apply append_same_prefix in Heq. now subst s'.
  - exact IH.
Qed.

Lemma roleSuffixes_NoDup : NoDup roleSuffixes.
Proof.
  unfold roleSuffixes.
  repeat (constructor; [cbn; intuition discriminate |]).
  constructor.
Qed.

Lemma constructionSuffixes_NoDup : NoDup constructionSuffixes.
Proof.
  unfold constructionSuffixes.
  repeat (constructor; [cbn; intuition discriminate |]).
  constructor.
Qed.

Lemma logicalNames_under_contract (p : string)
  (o : Options.FargateDeploymentOptions IAMRolePolicy) :
  composersKeepNames ->
  logicalNames (createFargateDeployment p o) = map (append p) roleSuffixes.
Proof.
  intros (Hexecution & Hrole & Htask).
  unfold logicalNames, createFargateDeployment; cbn.
  now rewrite Hexecution, Hrole, Htask.
Qed.

Lemma objectNames_under_contract (p : string)
  (o : Options.FargateDeploymentOptions IAMRolePolicy) :
  composersKeepNames ->
  map objectName (objectsOf (createFargateDeployment p o))
  = map (append p) constructionSuffixes.
Proof.
  intros (Hexecution & Hrole & Htask).
  unfold objectsOf, createFargateDeployment; cbn.
  now rewrite Hexecution, Hrole, Htask.
Qed.

(** X2.  If the sibling composers keep the names they are given, the
    fourteen logical names of one result are pairwise distinct. *)
Theorem logical_names_pairwise_distinct (name : string)
  (options : Options.FargateDeploymentOptions IAMRolePolicy) :
  composersKeepNames ->
  NoDup (logicalNames (createFargateDeployment name options)).
Proof.
  intros Hkeep. rewrite (@logicalNames_under_contract name options Hkeep).
  apply NoDup_map_append, roleSuffixes_NoDup.
Qed.

(** X4.  If the sibling composers keep the names they are given, two
    results built under different prefixes, from any options, have no
    logical name in common: no role suffix ends with another, so a name
    determines its prefix. *)
Theorem names_of_two_prefixes_never_collide (name other : string)
  (options options' : Options.FargateDeploymentOptions IAMRolePolicy) :
  composersKeepNames ->
  name <> other ->
  forall n,
    In n (logicalNames (createFargateDeployment name options)) ->
    ~ In n (logicalNames (createFargateDeployment other options')).
Proof.
  intros Hkeep Hdistinct n.
  rewrite (@logicalNames_under_contract name options Hkeep),
    (@logicalNames_under_contract other options' Hkeep), !in_map_iff.
  intros (s1 & Hn1 & Hin1) (s2 & Hn2 & Hin2).
  apply Hdistinct.
  destruct (@name_determines_prefix_and_role name other s1 s2 Hin1 Hin2)
    as [Hprefix _]; [congruence | exact Hprefix].
Qed.

(** ** Every link can be followed *)

(** Every reference in a bag built here points back, to an object
    constructed earlier. *)
Lemma reference_points_back (name : string)
  (options : Options.FargateDeploymentOptions IAMRolePolicy)
  (k : nat) (o : Object) (reference : Reference) :
  nth_error (objectsOf (createFargateDeployment name options)) k = Some o ->
  In reference (objectReferences o) ->
  exists j o',
    j < k
    /\ nth_error (objectsOf (createFargateDeployment name options)) j = Some o'
    /\ target reference = objectName o'.
Proof.
  intros Hk Hin.
  do 14 (destruct k as [| k];
         [ injection Hk as Ho; subst o; cbn in Hin;
           repeat (destruct Hin as [Hin | Hin];
                   [subst reference; earlier_object |]);
           contradiction
         | ]).
  cbn in Hk. destruct k; discriminate Hk.
Qed.

(** X5.  If the sibling composers keep the names they are given, every
    reference in a bag built here resolves to exactly one description of
    the result: one description has the logical name the reference points
    to, and no other has. *)
Theorem every_reference_resolves_once (name : string)
  (options : Options.FargateDeploymentOptions IAMRolePolicy)
  (k : nat) (o : Object) (reference : Reference) :
  composersKeepNames ->
  nth_error (objectsOf (createFargateDeployment name options)) k = Some o ->
  In reference (objectReferences o) ->
  exists j o',
    nth_error (objectsOf (createFargateDeployment name options)) j = Some o'
    /\ objectName o' = target reference
    /\ forall j' o'',
         nth_error (objectsOf (createFargateDeployment name options)) j'
         = Some o'' ->
         objectName o'' = target reference ->
         j' = j.
Proof.
  intros Hkeep Hk Hin.
  destruct (@reference_points_back name options k o reference Hk Hin)
    as (j & o' & _ & Hj & Htarget).
  exists j, o'. split; [exact Hj |]. split; [now symmetry |].
  intros j' o'' Hj' Hname.
  assert (Hdistinct :
    NoDup (map objectName (objectsOf (createFargateDeployment name options)))).
  { rewrite (@objectNames_under_contract name options Hkeep).
    apply NoDup_map_append, constructionSuffixes_NoDup. }
  rewrite NoDup_nth_error in Hdistinct. apply Hdistinct.
  - rewrite length_map. apply nth_error_Some. congruence.
  - rewrite !nth_error_map, Hj, Hj'. cbn. congruence.
Qed.


(** X7.  If the sibling composers keep the names they are given, no
    reference in the service's bag points to the listener: the ordering
    between the two comes from [dependsOn(service, listener)] alone. *)
Theorem service_holds_no_reference_to_the_listener (name : string)
  (options : Options.FargateDeploymentOptions IAMRolePolicy)
  (reference : Reference) :
  composersKeepNames ->
  let r := createFargateDeployment name options in
  In reference (objectReferences (ServiceObject (service r))) ->
  target reference <> LogicalName (listener r).
Proof.
  intros (_ & _ & Htask) r Hin. subst r.
  unfold createFargateDeployment, getRef in *; cbn in *.
  rewrite Htask in Hin.
  repeat (destruct Hin as [Hin | Hin];
          [ subst reference; cbn; intros Heq;
            apply append_same_prefix in Heq; discriminate Heq |]).
  contradiction.
Qed.

(** ** The network *)

(** X8.  The containers are reachable only through the load balancer.  The
    container security group has no ingress rule of its own; the result
    holds no security group but the two; every separate ingress rule of the
    result opens the container security group, to the load balancer's
    security group or to itself; only the load balancer's security group is
    open to [0.0.0.0/0]. *)
Theorem containers_reachable_only_through_the_load_balancer (name : string)
  (options : Options.FargateDeploymentOptions IAMRolePolicy) :
  let r := createFargateDeployment name options in
  EC2SecurityGroup.SecurityGroupIngress
    (Properties (containerSecurityGroup r)) = None
  /\ EC2SecurityGroup.SecurityGroupIngress
       (Properties (loadBalancerSecurityGroup r))
     = Some [ {| EC2SecurityGroup.CidrIp := "0.0.0.0/0";
                 EC2SecurityGroup.IpProtocol := "-1" |} ]
  /\ (forall group,
        In (SecurityGroupObject group) (objectsOf r) ->
        group = containerSecurityGroup r
        \/ group = loadBalancerSecurityGroup r)
  /\ (forall rule,
        In (SecurityGroupIngressObject rule) (objectsOf r) ->
        EC2SecurityGroupIngress.GroupId (Properties rule)
        = getRef (containerSecurityGroup r)
        /\ (EC2SecurityGroupIngress.SourceSecurityGroupId (Properties rule)
            = getRef (loadBalancerSecurityGroup r)
            \/ EC2SecurityGroupIngress.SourceSecurityGroupId (Properties rule)
               = getRef (containerSecurityGroup r))).
Proof.
  intros r. split; [reflexivity |]. split; [reflexivity |]. split.
  - intros group Hin. cbn in Hin.
    repeat (destruct Hin as [Hin | Hin];
            [ first [ discriminate Hin
                    | injection Hin as <-; auto ] |]).
    contradiction.
  - intros rule Hin. cbn in Hin.
    repeat (destruct Hin as [Hin | Hin];
            [ first [ discriminate Hin
                    | injection Hin as <-; cbn; auto ] |]).
    contradiction.
Qed.

(** X9.  The path of a request.  The DNS record is an A alias for the
    caller's domain on the load balancer of this call; that load balancer is
    internet-facing, in the public subnets, behind the load balancer's
    security group and not the containers'; the listener on it terminates
    HTTPS on 443 with the caller's certificate and forwards to the target
    group on which the service registers its container, at the port the
    target group checks; the service runs in the private subnets. *)
Theorem request_path (name : string)
  (options : Options.FargateDeploymentOptions IAMRolePolicy) :
  let r := createFargateDeployment name options in
  Properties (recordset r)
  = {| Route53RecordSet.Name := Options.DomainName options;
       Route53RecordSet.Type_ := "A";
       Route53RecordSet.HostedZoneName := Options.ZoneName options;
       Route53RecordSet.AliasTarget :=
         {| Route53RecordSet.HostedZoneId :=
              getAttribute (loadBalancer r) "CanonicalHostedZoneID";
            Route53RecordSet.DNSName :=
              getAttribute (loadBalancer r) "DNSName";
            Route53RecordSet.EvaluateTargetHealth := true |} |}
  /\ Properties (loadBalancer r)
     = {| LoadBalancer.Scheme := "internet-facing";
          LoadBalancer.LoadBalancerAttributes :=
            [ {| LoadBalancer.Key := "idle_timeout.timeout_seconds";
                 LoadBalancer.Value := "30" |} ];
          LoadBalancer.Subnets := Options.PublicSubnets options;
          LoadBalancer.SecurityGroups :=
            [ getRef (loadBalancerSecurityGroup r) ] |}
  /\ ~ In (getRef (containerSecurityGroup r))
          (LoadBalancer.SecurityGroups (Properties (loadBalancer r)))
  /\ Properties (listener r)
     = {| Listener.DefaultActions :=
            [ {| Listener.TargetGroupArn := getRef (targetGroup r);
                 Listener.Type_ := "forward" |} ];
          Listener.LoadBalancerArn := getRef (loadBalancer r);
          Listener.Port := 443%float;
          Listener.Protocol := "HTTPS";
          Listener.Certificates :=
            [ {| Listener.CertificateArn :=
                   Options.CertificateArn options |} ] |}
  /\ map ECSService.TargetGroupArn
       (ECSService.LoadBalancers (Properties (service r)))
     = map Listener.TargetGroupArn
         (Listener.DefaultActions (Properties (listener r)))
  /\ map ECSService.ContainerPort
       (ECSService.LoadBalancers (Properties (service r)))
     = [ TargetGroup.Port (Properties (targetGroup r)) ]
  /\ ECSService.Subnets
       (ECSService.AwsvpcConfiguration
          (ECSService.NetworkConfiguration (Properties (service r))))
     = Options.PrivateSubnets options.
Proof.
  intros r. subst r. unfold createFargateDeployment; cbn.
  split; [reflexivity |]. split; [reflexivity |]. split.
  - intros [Heq | []]. injection Heq as Heq.
    apply append_same_prefix in Heq. discriminate Heq.
  - repeat split.
Qed.

(** ** Defaults *)

(** X10.  Whatever the caller supplies, the service never asks for zero or
    NaN tasks and the target group's health-check path is never empty. *)
Theorem defaults_leave_nothing_falsy (name : string)
  (options : Options.FargateDeploymentOptions IAMRolePolicy) :
  let r := createFargateDeployment name options in
  truthyNumber (ECSService.DesiredCount (Properties (service r))) = true
  /\ TargetGroup.HealthCheckPath (Properties (targetGroup r)) <> "".
Proof.
  intros r. subst r. unfold createFargateDeployment; cbn. split.
  - unfold orNumber.
    destruct (Options.DesiredCount options) as [count |]; [| reflexivity].
    destruct (truthyNumber count) eqn:Hcount; [exact Hcount | reflexivity].
  - unfold orString, truthyString.
    destruct (Options.HealthCheckUrl options) as [[| c url] |];
      cbn; discriminate.
Qed.

(** ** What the composer does not read *)

(** X11.  If the sibling composers keep the names they are given, the image,
    the CPU and memory sizes, the stage and the environment reach the task
    definition only: replacing them in the options changes no other
    description of the result, and the task definition is the composer's,
    handed the replaced options and the same three references. *)
Theorem task_definition_fields_reach_only_the_task (name : string)
  (options : Options.FargateDeploymentOptions IAMRolePolicy)
  (imageUrl : string) (containerCpu containerMemory : option number)
  (stage : string) (environment : option (list (string * string))) :
  composersKeepNames ->
  let options' :=
    withTaskDefinitionFields imageUrl containerCpu containerMemory stage
      environment options in
  let r := createFargateDeployment name options in
  let r' := createFargateDeployment name options' in
  cluster r' = cluster r
  /\ containerSecurityGroup r' = containerSecurityGroup r
  /\ loadBalancerSecurityGroup r' = loadBalancerSecurityGroup r
  /\ albIngress r' = albIngress r
  /\ selfIngress r' = selfIngress r
  /\ loadBalancer r' = loadBalancer r
  /\ executionRole r' = executionRole r
  /\ taskRole r' = taskRole r
  /\ targetGroup r' = targetGroup r
  /\ service r' = service r
  /\ listener r' = listener r
  /\ logGroup r' = logGroup r
  /\ recordset r' = recordset r
  /\ task r'
     = createFargateTaskDefinition (name ++ "Task")
         {| FargateTaskDefinition.spread := options';
            FargateTaskDefinition.ExecutionRoleArn :=
              getAttribute (executionRole r) "Arn";
            FargateTaskDefinition.TaskRoleArn :=
              getAttribute (taskRole r) "Arn";
            FargateTaskDefinition.LogGroup := getRef (logGroup r) |}.
Proof.
  intros (_ & _ & Htask) options' r r'. subst options' r r'.
  unfold createFargateDeployment, getRef; cbn.
  rewrite !Htask.
  repeat split.
Qed.

(** ** Calls one after the other *)

(** X12.  Two calls with any prefixes and options, one after the other from
    any store: both return; the store keeps every object it held; through
    its own addresses each result reads as its own pure record, so the
    second call changes nothing of the first; the twenty-eight addresses are
    pairwise distinct. *)
Theorem successive_calls_do_not_interfere (name name' : string)
  (options options' : Options.FargateDeploymentOptions IAMRolePolicy)
  (s : Store) :
  exists first second s',
    bind (createFargateDeploymentS name options)
      (fun first =>
         bind (createFargateDeploymentS name' options')
           (fun second => ret (first, second))) s
    = Some ((first, second), s')
    /\ (forall a, a < List.length s -> nth_error s' a = nth_error s a)
    /\ snapshot s' first = Some (createFargateDeployment name options)
    /\ snapshot s' second = Some (createFargateDeployment name' options')
    /\ NoDup (addresses first ++ addresses second).
Proof.
  unfold bind.
  rewrite createFargateDeploymentS_run; cbv beta iota.
  rewrite createFargateDeploymentS_run; cbv beta iota.
  unfold ret.
  set (r := createFargateDeployment name options).
  set (r' := createFargateDeployment name' options').
  exists (handlesFrom (List.length s)),
         (handlesFrom (List.length (s ++ objectsOf r))),
         ((s ++ objectsOf r) ++ objectsOf r')%list.
  split; [reflexivity |].
  split; [| split; [| split]].
  - intros a Ha. rewrite <- app_assoc. now apply nth_error_keep.
  - rewrite <- app_assoc. apply snapshot_of_a_call.
  - rewrite <- (app_nil_r (objectsOf r')). apply snapshot_of_a_call.
  - rewrite !addresses_of_a_call, length_app.
    cbn [objectsOf List.length].
    rewrite <- seq_app. apply seq_NoDup.
Qed.

(** ** The heap: what two results share *)

Lemma allocH_shift (B : Type) (c : Cell) (f : Address -> HeapM B)
  (s l : Heap) :
  bindH (allocH c) f (s ++ l)%list
  = f (List.length s + List.length l) (s ++ (l ++ [c]))%list.
Proof.
  unfold bindH, allocH.
  now rewrite length_app, <- app_assoc.
Qed.

Lemma getRefH_shift (B : Type) (k : nat) (c : Cell) (n : string)
  (f : Reference -> HeapM B) (s l : Heap) :
  nth_error l k = Some c ->
  cellName c = Some n ->
  bindH (getRefH (List.length s + k)) f (s ++ l)%list
  = f (Ref n) (s ++ l)%list.
Proof.
  intros Hc Hn. unfold getRefH, bindH.
  now rewrite nth_error_shift, Hc, Hn.
Qed.

Lemma getAttributeH_shift (B : Type) (k : nat) (c : Cell) (n : string)
  (attributeName : string) (f : Reference -> HeapM B) (s l : Heap) :
  nth_error l k = Some c ->
  cellName c = Some n ->
  bindH (getAttributeH (List.length s + k) attributeName) f (s ++ l)%list
  = f (GetAtt n attributeName) (s ++ l)%list.
Proof.
  intros Hc Hn. unfold getAttributeH, bindH.
  now rewrite nth_error_shift, Hc, Hn.
Qed.

Lemma dependsOnH_shift (B : Type) (k j : nat) (c d c' : Cell) (n : string)
  (f : unit -> HeapM B) (s l : Heap) :
  nth_error l j = Some d ->
  cellName d = Some n ->
  nth_error l k = Some c ->
  cellAddDependency c n = Some c' ->
  bindH (dependsOnH (List.length s + k) (List.length s + j)) f (s ++ l)%list
  = f tt (s ++ update k c' l)%list.
Proof.
  intros Hd Hn Hc Hc'. unfold dependsOnH, bindH.
  now rewrite !nth_error_shift, Hd, Hn, Hc, Hc', update_shift.
Qed.

(** From any heap the call returns, and it only allocates: the same cells
    after whatever the heap held. *)
Lemma createFargateDeploymentByRef_cells (name : string)
  (options : OptionsByRef.FargateDeploymentOptions) :
  exists cells,
    forall s,
      createFargateDeploymentByRef name options s
      = Some (handlesFrom (List.length s), (s ++ cells)%list).
Proof.
  eexists. intros s.
  rewrite <- (app_nil_r s) at 1.
  unfold createFargateDeploymentByRef.
  repeat first
    [ rewrite allocH_shift
    | erewrite getRefH_shift by reflexivity
    | erewrite getAttributeH_shift by reflexivity
    | erewrite dependsOnH_shift by reflexivity ];
    cbn [List.length app update].
  reflexivity.
Qed.

Lemma createFargateDeploymentByRef_run (name : string)
  (options : OptionsByRef.FargateDeploymentOptions) (s : Heap) :
  createFargateDeploymentByRef name options s
  = Some (handlesFrom (List.length s),
          (s ++ cellsOfACall name options)%list).
Proof.
  destruct (createFargateDeploymentByRef_cells name options) as (cells & H).
  unfold cellsOfACall. rewrite (H []). cbn [app]. apply H.
Qed.

Lemma cellsOfACall_length (name : string)
  (options : OptionsByRef.FargateDeploymentOptions) :
  List.length (cellsOfACall name options) = 14.
Proof.
  reflexivity.
Qed.

(** Through its fourteen addresses a result reads the same, wherever in the
    heap the call allocated and whatever is allocated later. *)
Lemma snapshotByRef_of_a_call (name : string)
  (options : OptionsByRef.FargateDeploymentOptions) (s later : Heap) :
  snapshotByRef (s ++ cellsOfACall name options ++ later)%list
    (handlesFrom (List.length s))
  = snapshotByRef (cellsOfACall name options) (handlesFrom 0).
Proof.
  unfold snapshotByRef, derefH, handlesFrom.
  cbn [clusterAt containerSecurityGroupAt loadBalancerSecurityGroupAt
       albIngressAt selfIngressAt loadBalancerAt executionRoleAt taskRoleAt
       taskAt targetGroupAt serviceAt listenerAt logGroupAt recordsetAt].
  rewrite !nth_error_shift.
  rewrite !nth_error_keep by (rewrite cellsOfACall_length; lia).
  reflexivity.
Qed.

(** The heap embedding and the pure one build the same descriptions, up to
    how an array is held: nine descriptions are equal outright, the load
    balancer and the service in every field that is not an array or the
    name a composer gave the task definition. *)
Lemma by_reference_agrees_with_by_value (name : string)
  (options : OptionsByRef.FargateDeploymentOptions)
  (privateSubnets publicSubnets : list string)
  (policies : option (list IAMRolePolicy))
  (environment : option (list (string * string))) :
  exists r,
    snapshotByRef (cellsOfACall name options) (handlesFrom 0) = Some r
    /\ let p :=
         createFargateDeployment name
           (optionsByValue privateSubnets publicSubnets policies environment
              options) in
       clusterR r = cluster p
       /\ containerSecurityGroupR r = containerSecurityGroup p
       /\ loadBalancerSecurityGroupR r = loadBalancerSecurityGroup p
       /\ albIngressR r = albIngress p
       /\ selfIngressR r = selfIngress p
       /\ executionRoleR r = executionRole p
       /\ logGroupR r = logGroup p
       /\ targetGroupR r = targetGroup p
       /\ listenerR r = listener p
       /\ recordsetR r = recordset p
       /\ LogicalName (loadBalancerR r) = LogicalName (loadBalancer p)
       /\ DependsOn (loadBalancerR r) = DependsOn (loadBalancer p)
       /\ LoadBalancerByRef.Scheme (Properties (loadBalancerR r))
          = LoadBalancer.Scheme (Properties (loadBalancer p))
       /\ LoadBalancerByRef.LoadBalancerAttributes
            (Properties (loadBalancerR r))
          = LoadBalancer.LoadBalancerAttributes (Properties (loadBalancer p))
       /\ LoadBalancerByRef.SecurityGroups (Properties (loadBalancerR r))
          = LoadBalancer.SecurityGroups (Properties (loadBalancer p))
       /\ LogicalName (serviceR r) = LogicalName (service p)
       /\ DependsOn (serviceR r) = DependsOn (service p)
       /\ ECSServiceByRef.Cluster (Properties (serviceR r))
          = ECSService.Cluster (Properties (service p))
       /\ ECSServiceByRef.LaunchType (Properties (serviceR r))
          = ECSService.LaunchType (Properties (service p))
       /\ ECSServiceByRef.DeploymentConfiguration (Properties (serviceR r))
          = ECSService.DeploymentConfiguration (Properties (service p))
       /\ ECSServiceByRef.DesiredCount (Properties (serviceR r))
          = ECSService.DesiredCount (Properties (service p))
       /\ ECSServiceByRef.SecurityGroups
            (ECSServiceByRef.AwsvpcConfiguration
               (ECSServiceByRef.NetworkConfiguration (Properties (serviceR r))))
          = ECSService.SecurityGroups
              (ECSService.AwsvpcConfiguration
                 (ECSService.NetworkConfiguration (Properties (service p))))
       /\ ECSServiceByRef.LoadBalancers (Properties (serviceR r))
          = ECSService.LoadBalancers (Properties (service p)).
Proof.
  eexists. split; [reflexivity |].
  cbv zeta. repeat (split; [reflexivity |]). reflexivity.
Qed.


End Composer.

(** * The scenario, run

    The composer over the instances of the sibling composers, on the
    end-to-end scenario of the specification. *)
Abbreviation exampleDeployment :=
  (createFargateDeployment (@specFargateExecutionRole unit)
     (@specECSTaskRole unit) (@specFargateTaskDefinition unit)).

(** The end-to-end scenario, as the specification lists it. *)
Example scenario_end_to_end :
  let r := exampleDeployment "Api" exampleOptions in
  TargetGroup.Port (Properties (targetGroup r)) = 8080%float
  /\ TargetGroup.HealthCheckPath (Properties (targetGroup r)) = "/"
  /\ TargetGroup.TargetType (Properties (targetGroup r)) = "ip"
  /\ ECSService.DesiredCount (Properties (service r)) = 2%float
  /\ ECSService.LaunchType (Properties (service r)) = "FARGATE"
  /\ Listener.Port (Properties (listener r)) = 443%float
  /\ Listener.Protocol (Properties (listener r)) = "HTTPS"
  /\ Route53RecordSet.Name (Properties (recordset r)) = "api.example.com".
Proof.
  cbv. repeat split.
Qed.

(** C1 at ["Api"]: the instances keep the names they are given, and the
    fourteen names come out as the prefix followed by the role. *)
Lemma logical_names_prefix_then_role_witness :
  composersKeepNames (@specFargateExecutionRole unit) (@specECSTaskRole unit)
    (@specFargateTaskDefinition unit)
  /\ logicalNames (exampleDeployment "Api" exampleOptions)
     = map (append "Api") roleSuffixes.
Proof.
  assert (Hkeep : composersKeepNames (@specFargateExecutionRole unit)
                    (@specECSTaskRole unit) (@specFargateTaskDefinition unit)).
  { unfold composersKeepNames. repeat split. }
  split.
  - exact Hkeep.
  - exact (proj1 (logical_names_prefix_then_role "Api" "Web" exampleOptions
                    Hkeep)).
Defined.

(** C2 at [DesiredCount: 0].  The caller asks for no task; the service
    description asks for two. *)
Theorem service_desired_count_zero_becomes_two :
  let options := scenarioOptions (Some 0%float) None None in
  let service := service (exampleDeployment "Api" options) in
  Options.DesiredCount options = Some 0%float
  /\ ECSService.DesiredCount (Properties service) = 2%float
  /\ ECSService.DesiredCount (Properties service) <> 0%float.
Proof.
  cbv zeta. split; [reflexivity |].
  split; [reflexivity |].
  intros H. vm_compute in H. discriminate H.
Qed.

(** C3 refuted at [HealthCheckUrl: ""].  The caller supplies the empty
    path; the target group's health-check path is ["/"]. *)
Lemma health_check_path_of_the_empty_url :
  let options := scenarioOptions None (Some "") None in
  let targetGroup := targetGroup (exampleDeployment "Api" options) in
  Options.HealthCheckUrl options = Some ""
  /\ TargetGroup.HealthCheckPath (Properties targetGroup) = "/"
  /\ TargetGroup.HealthCheckPath (Properties targetGroup) <> "".
Proof.
  cbv zeta. split; [reflexivity |].
  split; [reflexivity |].
  intros H. vm_compute in H. discriminate H.
Qed.

(** C5 refuted at ["Api"]: the log group's logical name is [ApiLogGroup],
    its [LogGroupName] is [Api]. *)
Lemma log_group_logical_name_differs_from_its_name :
  let logGroup := logGroup (exampleDeployment "Api" exampleOptions) in
  LogicalName logGroup = "ApiLogGroup"
  /\ LogsLogGroup.LogGroupName (Properties logGroup) = "Api"
  /\ LogicalName logGroup <> LogsLogGroup.LogGroupName (Properties logGroup).
Proof.
  cbv zeta. split; [reflexivity |].
  split; [reflexivity |].
  intros H. vm_compute in H. discriminate H.
Qed.

(** C6 at ["Api"]: the instances record no edge, and the one edge of the
    result is [ApiService] after [ApiListener]. *)
Lemma one_edge_service_after_listener_witness :
  composersRecordNoEdge (@specFargateExecutionRole unit)
    (@specECSTaskRole unit) (@specFargateTaskDefinition unit)
  /\ dependencyEdges (exampleDeployment "Api" exampleOptions)
     = [ ("ApiService", "ApiListener") ].
Proof.
  assert (Hnone : composersRecordNoEdge (@specFargateExecutionRole unit)
                    (@specECSTaskRole unit) (@specFargateTaskDefinition unit)).
  { unfold composersRecordNoEdge. repeat split. }
  split.
  - exact Hnone.
  - exact (proj1 (one_edge_service_after_listener "Api" exampleOptions Hnone)).
Defined.

(** ** The further properties, at ["Api"] *)

Lemma spec_composers_keep_names :
  composersKeepNames (@specFargateExecutionRole unit) (@specECSTaskRole unit)
    (@specFargateTaskDefinition unit).
Proof.
  unfold composersKeepNames. repeat split.
Qed.

Lemma spec_composers_record_no_edge :
  composersRecordNoEdge (@specFargateExecutionRole unit)
    (@specECSTaskRole unit) (@specFargateTaskDefinition unit).
Proof.
  unfold composersRecordNoEdge. repeat split.
Qed.

(** X2 at ["Api"]. *)
Lemma logical_names_pairwise_distinct_witness :
  composersKeepNames (@specFargateExecutionRole unit) (@specECSTaskRole unit)
    (@specFargateTaskDefinition unit)
  /\ NoDup (logicalNames (exampleDeployment "Api" exampleOptions)).
Proof.
  split.
  - exact spec_composers_keep_names.
  - exact (@logical_names_pairwise_distinct _ _ _ _ _ _ "Api" exampleOptions
             spec_composers_keep_names).
Defined.

(** X4 at ["Api"] and ["Web"]: [ApiCluster] is a name of the first result
    and not of the second. *)
Lemma names_of_two_prefixes_never_collide_witness :
  "Api" <> "Web"
  /\ In "ApiCluster" (logicalNames (exampleDeployment "Api" exampleOptions))
  /\ ~ In "ApiCluster"
         (logicalNames
            (exampleDeployment "Web" (scenarioOptions None None (Some true)))).
Proof.
  assert (Hdistinct : "Api" <> "Web") by discriminate.
  assert (Hin : In "ApiCluster"
                  (logicalNames (exampleDeployment "Api" exampleOptions)))
    by (left; reflexivity).
  split; [exact Hdistinct |]. split; [exact Hin |].
  exact (@names_of_two_prefixes_never_collide _ _ _ _ _ _ "Api" "Web"
           exampleOptions (scenarioOptions None None (Some true))
           spec_composers_keep_names Hdistinct "ApiCluster" Hin).
Defined.

(** X5 at the listener of ["Api"] and its reference to the target group. *)
Lemma every_reference_resolves_once_witness :
  exists j o',
    nth_error (objectsOf (exampleDeployment "Api" exampleOptions)) j = Some o'
    /\ objectName o' = "ApiTargetGroup"
    /\ forall j' o'',
         nth_error (objectsOf (exampleDeployment "Api" exampleOptions)) j'
         = Some o'' ->
         objectName o'' = "ApiTargetGroup" ->
         j' = j.
Proof.
  refine (@every_reference_resolves_once _ _ _ _ _ _ "Api" exampleOptions 11
            (ListenerObject _ _
               (listener (exampleDeployment "Api" exampleOptions)))
            (Ref "ApiTargetGroup") spec_composers_keep_names _ _).
  - reflexivity.
  - left. reflexivity.
Defined.


(** X7 at the service of ["Api"] and its reference to the task
    definition. *)
Lemma service_holds_no_reference_to_the_listener_witness :
  target (Ref "ApiTask") <> "ApiListener".
Proof.
  refine (@service_holds_no_reference_to_the_listener _ _ _ _ _ _ "Api"
            exampleOptions (Ref "ApiTask") spec_composers_keep_names _).
  right. right. left. reflexivity.
Defined.

(** X11 at ["Api"]: another image and stage, the same service. *)
Lemma task_definition_fields_reach_only_the_task_witness :
  service
    (exampleDeployment "Api"
       (withTaskDefinitionFields "example/api:next" (Some 512%float) None
          "dev" (Some [ ("LOG_LEVEL", "debug") ]) exampleOptions))
  = service (exampleDeployment "Api" exampleOptions).
Proof.
  pose proof (@task_definition_fields_reach_only_the_task _ _ _ _ _ _ "Api"
                exampleOptions "example/api:next" (Some 512%float) None
                "dev" (Some [ ("LOG_LEVEL", "debug") ])
                spec_composers_keep_names) as H.
  cbv zeta in H.
  exact (proj1 (proj2 (proj2 (proj2 (proj2 (proj2 (proj2 (proj2 (proj2
           (proj2 H)))))))))).
Defined.

(** ** Two results and one array *)

(** The scenario's heap before the calls: the caller's two subnet arrays,
    [PrivateSubnets] at address 0 and [PublicSubnets] at address 1. *)
Abbreviation scenarioHeap :=
  ([ StringArrayCell unit ECSTaskRoleByRef.Options
       FargateTaskDefinitionByRef.Options [ "subnet-a" ];
     StringArrayCell unit ECSTaskRoleByRef.Options
       FargateTaskDefinitionByRef.Options [ "subnet-b" ] ]).

Abbreviation exampleDeploymentByRefTwice :=
  (createFargateDeploymentByRefTwice (IAMRolePolicy := unit)
     specFargateExecutionRoleByRef specECSTaskRoleByRef
     specFargateTaskDefinitionByRef).

